(** * Schedule generator: the calendar expansion of [create_schedule.py]

  A shallow embedding of the helper functions of [create_schedule.py]
  ([get_week_number_in_month], [sanitize_uid], [create_event],
  [generate_events], [generate_ics], [build_schedule_from_df]) together
  with the parts of Python's [datetime], [str] and [dict] they rest on,
  followed by the properties established about them. *)

From Stdlib Require Import ZArith List String Ascii Bool Lia Permutation Sorted.
Import ListNotations.
Open Scope string_scope.
Open Scope list_scope.
Open Scope Z_scope.

(** ** Exceptions and results *)

(** The exceptions the modelled code can raise.  [MalformedInputError]
  is the exception the specification names for unconvertible week
  numbers; no line of the program raises it. *)
Inductive exn : Type :=
| KeyError
| IndexError
| OverflowError
| ValueError
| TypeError
| MalformedInputError
| OutOfFuel.

Inductive outcome (A : Type) : Type :=
| Ok (a : A)
| Raise (e : exn).
Arguments Ok {A} a.
Arguments Raise {A} e.

Definition obind {A B} (x : outcome A) (f : A -> outcome B) : outcome B :=
match x with
| Ok a => f a
| Raise e => Raise e
end.

Notation "'let?' x := c1 'in' c2" := (obind c1 (fun x => c2))
(at level 10, x pattern, c1 at level 100, c2 at level 200).

(** ** Python's proleptic Gregorian calendar ([datetime.date]) *)

Module Calendar.

Record date : Type := mkdate { year : Z; month : Z; day : Z }.

Definition MINYEAR : Z := 1.
Definition MAXYEAR : Z := 9999.

Definition is_leap (y : Z) : bool :=
  (y mod 4 =? 0) && (negb (y mod 100 =? 0) || (y mod 400 =? 0)).

(** [_DAYS_IN_MONTH], indexed by month; index 0 is a placeholder. *)
Definition DAYS_IN_MONTH : list Z :=
  [0; 31; 28; 31; 30; 31; 30; 31; 31; 30; 31; 30; 31].

(** [_DAYS_BEFORE_MONTH], indexed by month; index 0 is a placeholder. *)
Definition DAYS_BEFORE_MONTH : list Z :=
  [0; 0; 31; 59; 90; 120; 151; 181; 212; 243; 273; 304; 334].

Definition days_in_month (y m : Z) : Z :=
  if (m =? 2) && is_leap y then 29
  else nth (Z.to_nat m) DAYS_IN_MONTH 0.

Definition days_before_month (y m : Z) : Z :=
  nth (Z.to_nat m) DAYS_BEFORE_MONTH 0
  + (if (m >? 2) && is_leap y then 1 else 0).

Definition days_before_year (y : Z) : Z :=
  let y' := y - 1 in
  y' * 365 + y' / 4 - y' / 100 + y' / 400.

Definition ymd2ord (y m d : Z) : Z :=
  days_before_year y + days_before_month y m + d.

(** [date.toordinal()]: 0001-01-01 is day 1. *)
Definition toordinal (dt : date) : Z :=
  ymd2ord (year dt) (month dt) (day dt).

(** [date.weekday()]: Monday is 0, Sunday is 6. *)
Definition weekday (dt : date) : Z :=
  (toordinal dt + 6) mod 7.

(** The invariant every constructed [date] satisfies. *)
Definition valid_date (dt : date) : bool :=
  (MINYEAR <=? year dt) && (year dt <=? MAXYEAR)
  && (1 <=? month dt) && (month dt <=? 12)
  && (1 <=? day dt) && (day dt <=? days_in_month (year dt) (month dt)).

(** [date.replace(day=1)]; the first of a month always exists. *)
Definition replace_day1 (dt : date) : date :=
  mkdate (year dt) (month dt) 1.

(** [(a - b).days] for two dates (or two datetimes at the same time of
    day). *)
Definition days_between (a b : date) : Z :=
  toordinal a - toordinal b.

(** Comparison of two dates: lexicographic on (year, month, day). *)
Definition date_ltb (a b : date) : bool :=
  (year a <? year b)
  || ((year a =? year b)
      && ((month a <? month b)
          || ((month a =? month b) && (day a <? day b)))).

Definition date_eqb (a b : date) : bool :=
  (year a =? year b) && (month a =? month b) && (day a =? day b).

Definition date_leb (a b : date) : bool :=
  date_ltb a b || date_eqb a b.

(** [dt + timedelta(days=1)]: the day field is bumped and the result
    normalised; leaving year 9999 raises [OverflowError]. *)
Definition add_one_day (dt : date) : outcome date :=
  let y := year dt in
  let m := month dt in
  let d := day dt + 1 in
  if d <=? days_in_month y m then Ok (mkdate y m d)
  else
    let m' := m + 1 in
    if m' <=? 12 then Ok (mkdate y m' 1)
    else
      let y' := y + 1 in
      if y' <=? MAXYEAR then Ok (mkdate y' 1 1)
      else Raise OverflowError.

(** A timestamp: a date with a time of day ([datetime.datetime], to the
    second). *)
Record datetime : Type := mkdatetime {
  dt_date : date;
  hour : Z;
  minute : Z;
  second : Z
}.

(** [datetime.combine(d, datetime.min.time())]. *)
Definition combine_midnight (d : date) : datetime :=
  mkdatetime d 0 0 0.

(** [dt.replace(hour=h, minute=m)]. *)
Definition replace_hour_minute (dt : datetime) (h m : Z) : datetime :=
  mkdatetime (dt_date dt) h m (second dt).



End Calendar.
Import Calendar.

(** ** Python text ([str])

    A Python string is a sequence of Unicode code points.  The model
    covers the strings whose code points are below U+0100: a character
    of [string] stands for the code point of the same number, so ASCII
    literals read as themselves.  The character classes below are
    Python's ([str.isalnum], [str.isspace]) on that range. *)

Module Text.

Definition code (c : ascii) : N := N_of_ascii c.

Definition in_range (lo hi : N) (c : ascii) : bool :=
  ((lo <=? code c) && (code c <=? hi))%N.

(** The ASCII letters and digits. *)
Definition is_ascii_alnum (c : ascii) : bool :=
  in_range 48 57 c || in_range 65 90 c || in_range 97 122 c.

(** [c.isalnum()]: besides the ASCII letters and digits, the letters
    and numeric characters of Latin-1 (U+00AA, the superscripts and
    fractions, U+00B5, U+00BA, U+00C0 to U+00FF except the two operator
    signs U+00D7 and U+00F7). *)
Definition isalnum (c : ascii) : bool :=
  is_ascii_alnum c
  || in_range 170 170 c || in_range 178 179 c || in_range 181 181 c
  || in_range 185 186 c || in_range 188 190 c
  || in_range 192 214 c || in_range 216 246 c || in_range 248 255 c.

(** [c.isspace()]. *)
Definition isspace (c : ascii) : bool :=
  in_range 9 13 c || in_range 28 32 c
  || in_range 133 133 c || in_range 160 160 c.

(** ["".join(c for c in s if keep(c))]. *)
Fixpoint filter_str (keep : ascii -> bool) (s : string) : string :=
  match s with
  | EmptyString => EmptyString
  | String c s' =>
      if keep c then String c (filter_str keep s') else filter_str keep s'
  end.

Fixpoint lstrip (s : string) : string :=
  match s with
  | EmptyString => EmptyString
  | String c s' => if isspace c then lstrip s' else s
  end.

Fixpoint rstrip (s : string) : string :=
  match s with
  | EmptyString => EmptyString
  | String c s' =>
      match rstrip s' with
      | EmptyString => if isspace c then EmptyString else String c EmptyString
      | r => String c r
      end
  end.

(** [s.strip()]. *)
Definition strip (s : string) : string := rstrip (lstrip s).

(** Truthiness of a string: non-empty. *)
Definition nonempty (s : string) : bool :=
  match s with
  | EmptyString => false
  | String _ _ => true
  end.

Definition newline : string := String (ascii_of_nat 10) EmptyString.

(** [sep.join(lines)]. *)
Definition join (sep : string) (lines : list string) : string :=
  String.concat sep lines.

(** Decimal digits, for [strftime]. *)
Definition digit (n : Z) : ascii :=
  ascii_of_N (Z.to_N (48 + n mod 10)).

Definition pad2 (n : Z) : string :=
  String (digit (n / 10)) (String (digit n) EmptyString).

Definition pad4 (n : Z) : string :=
  String (digit (n / 1000)) (String (digit (n / 100)) (pad2 n)).

(** [dt.strftime('%Y%m%dT%H%M%S')].  The year is written with four
    digits, as it is everywhere for the years 1000 to 9999; below 1000
    some C libraries leave out the leading zeros. *)
Definition strftime (dt : datetime) : string :=
  (pad4 (year (dt_date dt)) ++ pad2 (month (dt_date dt))
   ++ pad2 (day (dt_date dt)) ++ "T"
   ++ pad2 (hour dt) ++ pad2 (minute dt) ++ pad2 (second dt))%string.

(** ASCII upper-casing, the restriction of [str.upper] to ASCII text. *)
Definition ascii_upper_char (c : ascii) : ascii :=
  if in_range 97 122 c then ascii_of_N (code c - 32) else c.

Fixpoint ascii_upper (s : string) : string :=
  match s with
  | EmptyString => EmptyString
  | String c s' => String (ascii_upper_char c) (ascii_upper s')
  end.

End Text.
Import Text.

(** ** Python dictionaries

    A [dict] keeps its keys unique and iterates in insertion order.  It
    is modelled by the association list of its items in that order. *)

Module PyDict.

Class Key (K : Type) : Type := {
  key_eqb : K -> K -> bool;
  key_eqb_spec : forall x y : K, reflect (x = y) (key_eqb x y)
}.

#[export] Instance Key_Z : Key Z :=
  {| key_eqb := Z.eqb; key_eqb_spec := Z.eqb_spec |}.

#[export] Instance Key_string : Key string :=
  {| key_eqb := String.eqb; key_eqb_spec := String.eqb_spec |}.

Definition dict (K V : Type) : Type := list (K * V).

Section Operations.
Context {K V : Type} `{Key K}.

(** [d.get(k)]: [None] stands for Python's [None]. *)
Fixpoint get (k : K) (d : dict K V) : option V :=
  match d with
  | [] => None
  | (k', v) :: d' => if key_eqb k k' then Some v else get k d'
  end.

(** [k in d]. *)
Definition contains (k : K) (d : dict K V) : bool :=
  match get k d with
  | Some _ => true
  | None => false
  end.

(** [d[k]]. *)
Definition getitem (k : K) (d : dict K V) : outcome V :=
  match get k d with
  | Some v => Ok v
  | None => Raise KeyError
  end.

(** [d[k] = v]: an existing key keeps its position, a new one goes last. *)
Fixpoint setitem (k : K) (v : V) (d : dict K V) : dict K V :=
  match d with
  | [] => [(k, v)]
  | (k', v') :: d' =>
      if key_eqb k k' then (k', v) :: d' else (k', v') :: setitem k v d'
  end.

(** [d.items()] and [d.keys()]. *)
Definition items (d : dict K V) : list (K * V) := d.
Definition keys (d : dict K V) : list K := map fst d.

(** The representation invariant: no key occurs twice. *)
Fixpoint unique_keys (d : dict K V) : bool :=
  match d with
  | [] => true
  | (k, _) :: d' => negb (contains k d') && unique_keys d'
  end.

End Operations.

End PyDict.
Import PyDict.

(** ** The program *)

Module Schedule.

(** The template: week of month, then weekday name, then session
    ("AM" or "PM"), to the label. *)
Definition sessions_dict : Type := dict string string.
Definition template : Type := dict Z (dict string sessions_dict).

Definition WEEKDAY_MAP : dict string Z :=
  [("Mon", 0); ("Tues", 1); ("Wed", 2); ("Thur", 3); ("Fri", 4)].

Definition get_week_number_in_month (date : date) : Z :=
  let first_day := replace_day1 date in
  let days_from_first := days_between date first_day in
  days_from_first / 7 + 1.

Definition uid_char (c : ascii) : bool :=
  isalnum c || Ascii.eqb c "-" || Ascii.eqb c "_".

Definition sanitize_uid (text : string) : string :=
  strip (filter_str uid_char text).

(** [a == b] on the results of two [dict.get] calls. *)
Definition option_eqb (a b : option string) : bool :=
  match a, b with
  | Some x, Some y => String.eqb x y
  | None, None => true
  | _, _ => false
  end.

(** [[k for k, v in WEEKDAY_MAP.items() if v == weekday][0]]. *)
Definition day_name_of (weekday : Z) : outcome string :=
  match filter (fun kv => snd kv =? weekday) (items WEEKDAY_MAP) with
  | [] => Raise IndexError
  | (k, _) :: _ => Ok k
  end.

(** The time window of a session in the loop over [sessions.items()]:
    the "AM" key takes the morning, every other key the afternoon. *)
Definition session_window (base_dt : datetime) (session : string)
  : datetime * datetime :=
  if String.eqb session "AM"
  then (replace_hour_minute base_dt 8 0, replace_hour_minute base_dt 12 0)
  else (replace_hour_minute base_dt 13 0, replace_hour_minute base_dt 17 0).

(** [f"{start.strftime('%Y%m%dT%H%M%S')}-{location}@schedule"]. *)
Definition make_uid (start : datetime) (location : string) : string :=
  (strftime start ++ "-" ++ location ++ "@schedule")%string.

(** *** Code that reads the clock

    [create_event] reads the wall clock once per call.  A computation
    takes the number of clock reads made so far and returns its result
    with the new count, or the exception it raised; [clock i] is the
    instant the [i]-th read returns. *)

Section Clock.
Variable clock : nat -> datetime.

Definition M (A : Type) : Type := nat -> outcome (A * nat).

Definition ret {A} (a : A) : M A := fun n => Ok (a, n).

Definition bind {A B} (m : M A) (f : A -> M B) : M B :=
  fun n =>
    match m n with
    | Ok (a, n') => f a n'
    | Raise e => Raise e
    end.

Definition lift {A} (x : outcome A) : M A :=
  fun n =>
    match x with
    | Ok a => Ok (a, n)
    | Raise e => Raise e
    end.

(** [datetime.now(UTC)]. *)
Definition utcnow : M datetime := fun n => Ok (clock n, S n).

Notation "x <- c1 ;; c2" := (bind c1 (fun x => c2))
  (at level 61, c1 at next level, right associativity).

Definition create_event (uid : string) (start end_ : datetime)
  (location : string) : M (list string) :=
  let safe_uid := sanitize_uid uid in
  now <- utcnow ;;
  ret [ "BEGIN:VEVENT";
        ("UID:" ++ safe_uid)%string;
        ("DTSTAMP:" ++ strftime now ++ "Z")%string;
        ("DTSTART:" ++ strftime start)%string;
        ("DTEND:" ++ strftime end_)%string;
        ("SUMMARY:" ++ location)%string;
        ("LOCATION:" ++ location)%string;
        "X-APPLE-TRAVEL-ADVISORY-BEHAVIOR:DISABLED";
        "END:VEVENT" ].

(** The [for session, location in sessions.items()] loop. *)
Fixpoint for_sessions (base_dt : datetime) (its : list (string * string))
  (events : list string) : M (list string) :=
  match its with
  | [] => ret events
  | (session, location) :: rest =>
      let (start, end_) := session_window base_dt session in
      let uid := make_uid start location in
      block <- create_event uid start end_ location ;;
      for_sessions base_dt rest (events ++ block)
  end.

(** The body of the [while] loop up to the date increment. *)
Definition visit_day (schedule : template) (current_date : date)
  (events : list string) : M (list string) :=
  let weekday := weekday current_date in
  if weekday <? 5 then
    let week_num := get_week_number_in_month current_date in
    day_name <- lift (day_name_of weekday) ;;
    has_entry <- lift (if contains week_num schedule
                       then let? days := getitem week_num schedule in
                            Ok (contains day_name days)
                       else Ok false) ;;
    if (has_entry : bool) then
      sessions <- lift (let? days := getitem week_num schedule in
                        getitem day_name days) ;;
      let base_dt := combine_midnight current_date in
      if option_eqb (get "AM" sessions) (get "PM" sessions) then
        location <- lift (getitem "AM" sessions) ;;
        let start := replace_hour_minute base_dt 8 0 in
        let end_ := replace_hour_minute base_dt 17 0 in
        let uid := make_uid start location in
        block <- create_event uid start end_ location ;;
        ret (events ++ block)
      else
        for_sessions base_dt (items sessions) events
    else ret events
  else ret events.

(** The [while current_date <= end_date] loop.  [fuel] bounds the
    number of iterations; running out of it is reported as
    [Raise OutOfFuel], which [generate_events] is shown never to do. *)
Fixpoint while_loop (fuel : nat) (schedule : template) (end_date : date)
  (current_date : date) (events : list string) : M (list string) :=
  if date_leb current_date end_date then
    match fuel with
    | O => lift (Raise OutOfFuel)
    | S fuel' =>
        events' <- visit_day schedule current_date events ;;
        next <- lift (add_one_day current_date) ;;
        while_loop fuel' schedule end_date next events'
    end
  else ret events.

(** One iteration per day from [start_date] to [end_date].  The caller
    passes both as datetimes at midnight; they are compared, stepped
    and asked for their weekday exactly like their dates, which stand
    for them here. *)
Definition loop_fuel (start_date end_date : date) : nat :=
  Z.to_nat (toordinal end_date - toordinal start_date + 1).

Definition generate_events (start_date end_date : date)
  (schedule : template) : M (list string) :=
  while_loop (loop_fuel start_date end_date) schedule end_date start_date [].

Definition ICS_HEADER : list string :=
  [ "BEGIN:VCALENDAR";
    "VERSION:2.0";
    "PRODID:-//Schedule Generator//EN";
    "CALSCALE:GREGORIAN" ].

(** [generate_ics] up to the final join: the list [ics_lines]. *)
Definition generate_ics_lines (start_date end_date : date)
  (schedule : template) : M (list string) :=
  let ics_lines := ICS_HEADER in
  events <- generate_events start_date end_date schedule ;;
  let ics_lines := ics_lines ++ events in
  let ics_lines := ics_lines ++ ["END:VCALENDAR"] in
  ret ics_lines.

Definition generate_ics (start_date end_date : date)
  (schedule : template) : M string :=
  ics_lines <- generate_ics_lines start_date end_date schedule ;;
  ret (join newline ics_lines).

End Clock.

(** The guard of the download button:
    [any(schedule[w][d].get("AM") or schedule[w][d].get("PM") ...)]. *)
Definition truthy (label : option string) : bool :=
  match label with
  | Some text => nonempty text
  | None => false
  end.

Definition has_any_label (schedule : template) : bool :=
  existsb (fun week =>
    existsb (fun entry =>
      truthy (get "AM" (snd entry)) || truthy (get "PM" (snd entry)))
      (items (snd week)))
    (items schedule).

End Schedule.
Import Schedule.

(** *** The template normalizer *)

Module Normalizer.

(** The value of a "Week" cell: a number, text, a missing number (NaN)
    or [None]. *)
Inductive week_cell : Type :=
| WeekInt (n : Z)
| WeekText (s : string)
| WeekNaN
| WeekNone.

(** A row of the table; the weekday cells hold the text [str(row[day])]
    yields. *)
Record row : Type := mkrow {
  row_week : week_cell;
  row_ampm : string;
  row_mon : string;
  row_tues : string;
  row_wed : string;
  row_thur : string;
  row_fri : string
}.

(** [row[column]] for the weekday columns. *)
Definition row_getitem (r : row) (column : string) : outcome string :=
  if String.eqb column "Mon" then Ok (row_mon r)
  else if String.eqb column "Tues" then Ok (row_tues r)
  else if String.eqb column "Wed" then Ok (row_wed r)
  else if String.eqb column "Thur" then Ok (row_thur r)
  else if String.eqb column "Fri" then Ok (row_fri r)
  else Raise KeyError.

(** A [for] loop whose body may raise. *)
Fixpoint for_each {A B : Type} (body : A -> B -> outcome A) (l : list B)
  (a : A) : outcome A :=
  match l with
  | [] => Ok a
  | x :: l' => let? a' := body a x in for_each body l' a'
  end.

Section Table.

(** [str.upper], and [int] on text ([None] when the text is not an
    integer literal); nothing below depends on what they compute. *)
Variable upper : string -> string.
Variable int_of_text : string -> option Z.

(** [int(x)] on a "Week" cell. *)
Definition py_int (x : week_cell) : outcome Z :=
  match x with
  | WeekInt n => Ok n
  | WeekText s =>
      match int_of_text s with
      | Some n => Ok n
      | None => Raise ValueError
      end
  | WeekNaN => Raise ValueError
  | WeekNone => Raise TypeError
  end.

(** The body of [for day in WEEKDAY_MAP.keys()]. *)
Definition fill_day (r : row) (week : Z) (ampm : string)
  (schedule : template) (day : string) : outcome template :=
  let? week_days := getitem week schedule in
  let week_days :=
    if contains day week_days then week_days
    else setitem day ([] : sessions_dict) week_days in
  let? cell := row_getitem r day in
  let value := strip cell in
  if nonempty value then
    let? sessions := getitem day week_days in
    Ok (setitem week (setitem day (setitem ampm value sessions) week_days)
          schedule)
  else Ok (setitem week week_days schedule).

(** The body of [for _, row in df.iterrows()]. *)
Definition add_row (schedule : template) (r : row) : outcome template :=
  let? week := py_int (row_week r) in
  let ampm := upper (strip (row_ampm r)) in
  let schedule :=
    if contains week schedule then schedule
    else setitem week ([] : dict string sessions_dict) schedule in
  for_each (fill_day r week ampm) (keys WEEKDAY_MAP) schedule.

Definition build_schedule_from_df (df : list row) : outcome template :=
  for_each add_row df ([] : template).

End Table.

(** [int] on plain decimal numerals, for the examples. *)
Fixpoint decimal_value (acc : Z) (s : string) : option Z :=
  match s with
  | EmptyString => Some acc
  | String c s' =>
      if in_range 48 57 c
      then decimal_value (10 * acc + (Z.of_N (code c) - 48)) s'
      else None
  end.

Definition decimal_int (s : string) : option Z :=
  match s with
  | EmptyString => None
  | _ => decimal_value 0 s
  end.

End Normalizer.
Import Normalizer.

(** ** The events behind the emitted lines

    [generate_events] returns lines only.  The definitions below name
    the [create_event] calls it makes, so that statements can speak of
    events, their windows and their dates. *)

Module Events.

(** The arguments of one [create_event] call; the [uid] argument is
    always [make_uid start location]. *)
Record event : Type := mkevent {
  ev_start : datetime;
  ev_end : datetime;
  ev_location : string
}.

(** The nine lines [create_event] returns when the clock reads [stamp]. *)
Definition event_block (stamp : datetime) (ev : event) : list string :=
  [ "BEGIN:VEVENT";
    ("UID:" ++ sanitize_uid (make_uid (ev_start ev) (ev_location ev)))%string;
    ("DTSTAMP:" ++ strftime stamp ++ "Z")%string;
    ("DTSTART:" ++ strftime (ev_start ev))%string;
    ("DTEND:" ++ strftime (ev_end ev))%string;
    ("SUMMARY:" ++ ev_location ev)%string;
    ("LOCATION:" ++ ev_location ev)%string;
    "X-APPLE-TRAVEL-ADVISORY-BEHAVIOR:DISABLED";
    "END:VEVENT" ].

(** The blocks of a list of events, the first stamped by clock read [n]. *)
Fixpoint event_blocks (clock : nat -> datetime) (n : nat)
  (evs : list event) : list string :=
  match evs with
  | [] => []
  | ev :: rest => event_block (clock n) ev ++ event_blocks clock (S n) rest
  end.

Definition at_time (d : date) (h : Z) : datetime :=
  replace_hour_minute (combine_midnight d) h 0.

Definition full_day_event (d : date) (label : string) : event :=
  mkevent (at_time d 8) (at_time d 17) label.

Definition morning_event (d : date) (label : string) : event :=
  mkevent (at_time d 8) (at_time d 12) label.

Definition afternoon_event (d : date) (label : string) : event :=
  mkevent (at_time d 13) (at_time d 17) label.

Definition session_event (base_dt : datetime) (it : string * string)
  : event :=
  let (start, end_) := session_window base_dt (fst it) in
  mkevent start end_ (snd it).

(** The template entry [T[week(d)][weekday(d)]] of a date, if any. *)
Definition template_entry (schedule : template) (d : date)
  : option sessions_dict :=
  match day_name_of (weekday d) with
  | Ok day_name =>
      match get (get_week_number_in_month d) schedule with
      | Some days => get day_name days
      | None => None
      end
  | Raise _ => None
  end.

(** The [create_event] calls of one pass through the loop body. *)
Definition day_events (schedule : template) (d : date)
  : outcome (list event) :=
  if weekday d <? 5 then
    let? day_name := day_name_of (weekday d) in
    match get (get_week_number_in_month d) schedule with
    | Some days =>
        match get day_name days with
        | Some sessions =>
            if option_eqb (get "AM" sessions) (get "PM" sessions) then
              let? location := getitem "AM" sessions in
              Ok [full_day_event d location]
            else Ok (map (session_event (combine_midnight d)) (items sessions))
        | None => Ok []
        end
    | None => Ok []
    end
  else Ok [].

(** The [create_event] calls of the whole loop, in order. *)
Fixpoint events_loop (fuel : nat) (schedule : template) (end_date : date)
  (current_date : date) : outcome (list event) :=
  if date_leb current_date end_date then
    match fuel with
    | O => Raise OutOfFuel
    | S fuel' =>
        let? evs := day_events schedule current_date in
        let? next := add_one_day current_date in
        let? rest := events_loop fuel' schedule end_date next in
        Ok (evs ++ rest)
    end
  else Ok [].

Definition planned_events (start_date end_date : date)
  (schedule : template) : outcome (list event) :=
  events_loop (loop_fuel start_date end_date) schedule end_date start_date.




(** The data model of a template entry: a dictionary whose keys are
    among "AM" and "PM". *)
Definition session_keys_ok (sessions : sessions_dict) : bool :=
  unique_keys sessions
  && forallb (fun k => String.eqb k "AM" || String.eqb k "PM")
       (keys sessions).


(** A property of every entry of a template. *)
Definition all_entries (P : sessions_dict -> bool) (schedule : template)
  : bool :=
  forallb (fun week => forallb (fun entry => P (snd entry)) (items (snd week)))
    (items schedule).

(** An entry on which the loop body does not fail. *)
Definition has_session (sessions : sessions_dict) : bool :=
  contains "AM" sessions || contains "PM" sessions.



(** The entry of a week and weekday name, [schedule[week][day]]. *)
Definition lookup (schedule : template) (week : Z) (day : string)
  : option sessions_dict :=
  match get week schedule with
  | Some days => get day days
  | None => None
  end.

(** What one row does to the entry of one of its weekday columns. *)
Definition updated_entry (r : row) (ampm day : string)
  (old : option sessions_dict) : sessions_dict :=
  let sessions := match old with Some s => s | None => [] end in
  match row_getitem r day with
  | Ok cell =>
      if nonempty (strip cell) then setitem ampm (strip cell) sessions
      else sessions
  | Raise _ => sessions
  end.

(** The shape of a template built from the rows [seen]: the week of
    every row is a key; every week holds all five weekday names; every
    label is non-empty and stripped; and every non-empty entry stems
    from a filled cell of a row of its week. *)
Definition normalized (int_of_text : string -> option Z)
  (seen : list row) (schedule : template) : Prop :=
  (forall r w, In r seen -> py_int int_of_text (row_week r) = Ok w ->
     contains w schedule = true)
  /\ (forall w day, contains w schedule = true ->
        In day (keys WEEKDAY_MAP) ->
        exists sessions, lookup schedule w day = Some sessions)
  /\ (forall w day sessions k v,
        lookup schedule w day = Some sessions -> get k sessions = Some v ->
        v <> EmptyString /\ strip v = v)
  /\ (forall w day sessions,
        lookup schedule w day = Some sessions -> sessions <> [] ->
        exists r cell,
          In r seen /\ py_int int_of_text (row_week r) = Ok w
          /\ row_getitem r day = Ok cell /\ strip cell <> EmptyString).

(** A date on which the loop body fails: a weekday whose entry holds
    neither an "AM" nor a "PM" key. *)
Definition lacks_sessions (schedule : template) (d : date) : Prop :=
  weekday d < 5
  /\ exists sessions,
       template_entry schedule d = Some sessions
       /\ get "AM" sessions = None /\ get "PM" sessions = None.

(** A date of the range from [start_date] to [end_date]. *)
Definition within (start_date end_date d : date) : Prop :=
  valid_date d = true
  /\ date_leb start_date d = true /\ date_leb d end_date = true.

(** The identifier [create_event] writes for an event. *)
Definition event_uid (ev : event) : string :=
  sanitize_uid (make_uid (ev_start ev) (ev_location ev)).

(** Every character of a text satisfies [p]. *)
Fixpoint forall_str (p : ascii -> bool) (s : string) : bool :=
  match s with
  | EmptyString => true
  | String c s' => p c && forall_str p s'
  end.

(** The session key a row writes under: its "AM/PM" cell, stripped and
    upper-cased. *)
Definition row_key (upper : string -> string) (r : row) : string :=
  upper (strip (row_ampm r)).

(** The row has the non-blank cell [cell] in the weekday column [day]. *)
Definition fills (r : row) (day cell : string) : Prop :=
  row_getitem r day = Ok cell /\ strip cell <> EmptyString.

(** The content of a template built from the rows [seen]: every label
    is the stripped cell of a row of its week and key, and every
    non-blank cell of a row has left its key in its entry. *)
Definition traced (upper : string -> string)
  (int_of_text : string -> option Z)
  (seen : list row) (schedule : template) : Prop :=
  (forall w day sessions k v,
     lookup schedule w day = Some sessions -> get k sessions = Some v ->
     exists r cell,
       In r seen /\ py_int int_of_text (row_week r) = Ok w
       /\ row_key upper r = k /\ fills r day cell /\ strip cell = v)
  /\ (forall r w day cell,
        In r seen -> py_int int_of_text (row_week r) = Ok w ->
        fills r day cell ->
        exists sessions v,
          lookup schedule w day = Some sessions
          /\ get (row_key upper r) sessions = Some v).

(** No key occurs twice among the weeks, nor among the weekdays of a
    week. *)
Definition keys_unique (schedule : template) : Prop :=
  unique_keys schedule = true
  /\ forall w days, get w schedule = Some days -> unique_keys days = true.


(** The character set the specification gives for identifiers: A-Z,
    a-z, 0-9, hyphen and underscore. *)
Definition spec_uid_char (c : ascii) : bool :=
  is_ascii_alnum c || Ascii.eqb c "-" || Ascii.eqb c "_".

Definition spec_sanitize (text : string) : string :=
  filter_str spec_uid_char text.

(** Text made of ASCII characters only. *)
Fixpoint is_ascii (s : string) : bool :=
  match s with
  | EmptyString => true
  | String c s' => in_range 0 127 c && is_ascii s'
  end.

(** Two lines agree except for the value of a DTSTAMP line. *)
Definition same_but_stamp (a b : string) : Prop :=
  a = b
  \/ exists t1 t2 : datetime,
       a = ("DTSTAMP:" ++ strftime t1 ++ "Z")%string
       /\ b = ("DTSTAMP:" ++ strftime t2 ++ "Z")%string.

(** A line beginning with [pre]. *)
Definition starts_with (pre line : string) : bool :=
  String.prefix pre line.

(** A UID, DTSTART, DTEND, SUMMARY or LOCATION line. *)
Definition field_line (line : string) : bool :=
  starts_with "UID:" line || starts_with "DTSTART:" line
  || starts_with "DTEND:" line || starts_with "SUMMARY:" line
  || starts_with "LOCATION:" line.

End Events.
Import Events.

(** ** The page

    The script below the helper functions: the grid the editor starts
    from, the check of the date range, the guard of the download button
    and the call of [generate_ics]. *)

Module App.

Definition blank_row (week : Z) (ampm : string) : row :=
  mkrow (WeekInt week) ampm "" "" "" "" "".

(** [default_data]: for [week] in [range(1, 6)], an "AM" and a "PM" row. *)
Definition default_data : list row :=
  flat_map (fun week => [blank_row week "AM"; blank_row week "PM"])
    [1; 2; 3; 4; 5].

(** What the page shows below the date pickers. *)
Inductive element : Type :=
| ErrorNotice (text : string)
| InfoNotice (text : string)
| DownloadButton (label data file_name mime : string).

Section Page.
Variable clock : nat -> datetime.
Variable upper : string -> string.
Variable int_of_text : string -> option Z.

(** The script from [if start_date > end_date] on, for the table the
    editor returned and the two dates picked. *)
Definition page (edited_df : list row) (start_date end_date : date)
  : M element :=
  if date_ltb end_date start_date then
    ret (ErrorNotice "Start date must be before end date.")
  else
    bind (lift (build_schedule_from_df upper int_of_text edited_df))
      (fun schedule =>
         if has_any_label schedule then
           bind (generate_ics clock start_date end_date schedule)
             (fun ics_content =>
                ret (DownloadButton "Generate and Download .ics file"
                       ics_content "schedule.ics" "text/calendar"))
         else
           ret (InfoNotice
                  "Enter your schedule above to enable the download button.")).

End Page.

End App.
Import App.

(** ** Sample data *)

Module Samples.

(** Wednesday 2025-10-01 to Tuesday 2025-10-07; all in week 1. *)
Definition wed_oct_1 : date := mkdate 2025 10 1.
Definition thu_oct_2 : date := mkdate 2025 10 2.
Definition fri_oct_3 : date := mkdate 2025 10 3.
Definition mon_oct_6 : date := mkdate 2025 10 6.
Definition tue_oct_7 : date := mkdate 2025 10 7.

(** A clock that advances one second per read. *)
Definition ticking (n : nat) : datetime :=
  mkdatetime (mkdate 2026 1 15) 9 30 (Z.of_nat n).

(** A clock stopped at another instant. *)
Definition stopped (n : nat) : datetime :=
  mkdatetime (mkdate 2027 3 2) 18 0 0.

(** Week 1: the same room all Wednesday, two rooms on Thursday, a
    morning only on Friday. *)
Definition rooms : template :=
  [(1, [("Wed", [("AM", "Lab A"); ("PM", "Lab A")]);
        ("Thur", [("AM", "RoomA"); ("PM", "RoomB")]);
        ("Fri", [("AM", "Clinic")])])].


(** A Monday entry without sessions. *)
Definition empty_monday : template :=
  [(1, [("Mon", [])])].

(** A table with one filled cell: Wednesday morning of week 1. *)
Definition one_cell : list row :=
  [mkrow (WeekInt 1) "AM" "" "" "Lab A" "" ""].

(** The template [build_schedule_from_df] returns for [one_cell]. *)
Definition one_cell_template : template :=
  [(1, [("Mon", []); ("Tues", []); ("Wed", [("AM", "Lab A")]);
        ("Thur", []); ("Fri", [])])].


(** U+00E9, the letter e with an acute accent. *)
Definition e_acute : ascii := ascii_of_nat 233.

(** The label "Cafe" written with U+00E9 as its last character. *)
Definition cafe : string :=
  String "C" (String "a" (String "f" (String e_acute EmptyString))).

(** Wednesday morning of week 1 at that place. *)
Definition cafe_wednesday : template :=
  [(1, [("Wed", [("AM", cafe)])])].

End Samples.
Import Samples.

(** * Properties *)

(** ** Calendar arithmetic *)

Ltac month_cases m :=
  let H := fresh "Hm" in
  assert (H : m = 1 \/ m = 2 \/ m = 3 \/ m = 4 \/ m = 5 \/ m = 6 \/ m = 7
              \/ m = 8 \/ m = 9 \/ m = 10 \/ m = 11 \/ m = 12) by lia;
  repeat (destruct H as [H | H]; [subst m | ]); [ .. | subst m].

Ltac eval_tables :=
  cbn [andb orb negb];
  repeat match goal with
  | |- context [nth ?n ?l ?d] =>
      let v := eval vm_compute in (nth n l d) in
      change (nth n l d) with v
  | |- context [Z.eqb ?a ?b] =>
      let v := eval vm_compute in (Z.eqb a b) in
      change (Z.eqb a b) with v
  | |- context [Z.gtb ?a ?b] =>
      let v := eval vm_compute in (Z.gtb a b) in
      change (Z.gtb a b) with v
  end;
  cbn [andb orb negb].

Ltac bool_to_prop :=
  repeat (progress rewrite ?orb_true_iff, ?andb_true_iff,
            ?Z.ltb_lt, ?Z.leb_le, ?Z.eqb_eq).

Lemma valid_date_iff (dt : date) :
  valid_date dt = true <->
  1 <= year dt <= 9999 /\ 1 <= month dt <= 12
  /\ 1 <= day dt <= days_in_month (year dt) (month dt).
Proof.
  unfold valid_date, MINYEAR, MAXYEAR.
  rewrite !andb_true_iff, !Z.leb_le. lia.
Qed.

Lemma days_in_month_bounds (y m : Z) :
  1 <= m <= 12 -> 28 <= days_in_month y m <= 31.
Proof.
  intros Hm. unfold days_in_month.
  month_cases m; destruct (is_leap y); eval_tables; lia.
Qed.

Lemma days_before_month_step (y m : Z) :
  1 <= m <= 11 ->
  days_before_month y (m + 1) = days_before_month y m + days_in_month y m.
Proof.
  intros Hm. unfold days_before_month, days_in_month.
  assert (H12 : m <> 12) by lia.
  month_cases m; try contradiction; destruct (is_leap y); eval_tables;
    reflexivity.
Qed.

Lemma days_before_month_december (y : Z) :
  days_before_month y 12 + days_in_month y 12
  = 365 + (if is_leap y then 1 else 0).
Proof.
  unfold days_before_month, days_in_month.
  destruct (is_leap y); reflexivity.
Qed.

Lemma days_before_year_step (y : Z) :
  days_before_year (y + 1)
  = days_before_year y + 365 + (if is_leap y then 1 else 0).
Proof.
  unfold days_before_year, is_leap. cbv zeta.
  replace (y + 1 - 1) with y by lia.
  destruct (y mod 4 =? 0) eqn:H4; destruct (y mod 100 =? 0) eqn:H100;
    destruct (y mod 400 =? 0) eqn:H400; cbn [andb orb negb];
    rewrite ?Z.eqb_eq, ?Z.eqb_neq in *;
    Z.to_euclidean_division_equations; lia.
Qed.

Lemma days_before_year_mono (y y' : Z) :
  y < y' ->
  days_before_year y + 365 + (if is_leap y then 1 else 0)
  <= days_before_year y'.
Proof.
  intros Hlt. rewrite <- days_before_year_step.
  unfold days_before_year. cbv zeta.
  Z.to_euclidean_division_equations; lia.
Qed.

Lemma days_before_month_range (y m : Z) :
  1 <= m <= 12 ->
  0 <= days_before_month y m
  /\ days_before_month y m + days_in_month y m
     <= 365 + (if is_leap y then 1 else 0).
Proof.
  intros Hm. unfold days_before_month, days_in_month.
  month_cases m; destruct (is_leap y); eval_tables; lia.
Qed.

Lemma days_before_month_mono (y m m' : Z) :
  1 <= m -> m < m' -> m' <= 12 ->
  days_before_month y m + days_in_month y m <= days_before_month y m'.
Proof.
  intros H1 Hlt H12.
  assert (Hex : exists k, 0 <= k /\ m' = m + 1 + k) by (exists (m' - m - 1); lia).
  destruct Hex as (k & Hk & ->).
  revert H12. pattern k. apply natlike_ind; [ | | exact Hk].
  - intros H12. rewrite Z.add_0_r, days_before_month_step; lia.
  - intros j Hj IH H12.
    replace (m + 1 + Z.succ j) with ((m + 1 + j) + 1) by lia.
    rewrite days_before_month_step by lia.
    pose proof (days_in_month_bounds y (m + 1 + j)). lia.
Qed.

Lemma add_one_day_ok (dt dt' : date) :
  valid_date dt = true -> add_one_day dt = Ok dt' ->
  valid_date dt' = true /\ toordinal dt' = toordinal dt + 1.
Proof.
  rewrite !valid_date_iff. destruct dt as [y m d]. cbn [year month day].
  intros (Hy & Hm & Hd). unfold add_one_day, MAXYEAR. cbn [year month day].
  unfold toordinal, ymd2ord.
  destruct (d + 1 <=? days_in_month y m) eqn:E1.
  - apply Z.leb_le in E1. intros [= <-]. cbn [year month day]. lia.
  - apply Z.leb_gt in E1.
    destruct (m + 1 <=? 12) eqn:E2.
    + apply Z.leb_le in E2. intros [= <-]. cbn [year month day].
      rewrite days_before_month_step by lia.
      pose proof (days_in_month_bounds y (m + 1)). lia.
    + apply Z.leb_gt in E2. assert (m = 12) by lia. subst m.
      destruct (y + 1 <=? 9999) eqn:E3; [ | discriminate].
      apply Z.leb_le in E3. intros [= <-]. cbn [year month day].
      rewrite days_before_year_step.
      pose proof (days_before_month_december y).
      change (days_before_month (y + 1) 1) with 0.
      change (days_in_month (y + 1) 1) with 31. lia.
Qed.

Lemma add_one_day_raises (dt : date) (e : exn) :
  valid_date dt = true -> add_one_day dt = Raise e ->
  e = OverflowError /\ dt = mkdate 9999 12 31.
Proof.
  rewrite valid_date_iff. destruct dt as [y m d]. cbn [year month day].
  intros (Hy & Hm & Hd). unfold add_one_day, MAXYEAR. cbn [year month day].
  destruct (d + 1 <=? days_in_month y m) eqn:E1; [discriminate | ].
  destruct (m + 1 <=? 12) eqn:E2; [discriminate | ].
  destruct (y + 1 <=? 9999) eqn:E3; [discriminate | ].
  apply Z.leb_gt in E1, E2, E3. intros [= <-]. split; [reflexivity | ].
  assert (m = 12) by lia. assert (y = 9999) by lia. subst m y.
  change (days_in_month 9999 12) with 31 in *. f_equal. lia.
Qed.

Lemma date_eqb_eq (a b : date) : date_eqb a b = true <-> a = b.
Proof.
  destruct a as [y m d], b as [y' m' d']. unfold date_eqb.
  cbn [year month day]. rewrite !andb_true_iff, !Z.eqb_eq.
  split; [intros [[-> ->] ->]; reflexivity | intros [= -> -> ->]; auto].
Qed.

Lemma date_eqb_refl (a : date) : date_eqb a a = true.
Proof. apply date_eqb_eq. reflexivity. Qed.

Lemma date_ltb_toordinal (a b : date) :
  valid_date a = true -> valid_date b = true ->
  date_ltb a b = true -> toordinal a < toordinal b.
Proof.
  rewrite !valid_date_iff. destruct a as [y m d], b as [y' m' d'].
  unfold date_ltb, toordinal, ymd2ord. cbn [year month day].
  intros (Hy & Hm & Hd) (Hy' & Hm' & Hd'). bool_to_prop.
  intros [Hlt | [-> [Hlt | [-> Hlt]]]].
  - pose proof (days_before_year_mono y y' Hlt).
    pose proof (days_before_month_range y m Hm).
    pose proof (days_before_month_range y' m' Hm'). lia.
  - pose proof (days_before_month_mono y' m m'). lia.
  - lia.
Qed.

Lemma date_trichotomy (a b : date) :
  date_ltb a b = true \/ a = b \/ date_ltb b a = true.
Proof.
  destruct a as [y m d], b as [y' m' d']. unfold date_ltb.
  cbn [year month day]. bool_to_prop.
  destruct (Z.lt_trichotomy y y') as [? | [-> | ?]]; [lia | | lia].
  destruct (Z.lt_trichotomy m m') as [? | [-> | ?]]; [lia | | lia].
  destruct (Z.lt_trichotomy d d') as [? | [-> | ?]]; [lia | | lia].
  right; left; reflexivity.
Qed.

Lemma toordinal_inj (a b : date) :
  valid_date a = true -> valid_date b = true ->
  toordinal a = toordinal b -> a = b.
Proof.
  intros Ha Hb Heq.
  destruct (date_trichotomy a b) as [H | [H | H]]; [ | exact H | ].
  - apply date_ltb_toordinal in H; auto. lia.
  - apply date_ltb_toordinal in H; auto. lia.
Qed.

Lemma date_leb_toordinal (a b : date) :
  valid_date a = true -> valid_date b = true ->
  date_leb a b = (toordinal a <=? toordinal b).
Proof.
  intros Ha Hb. unfold date_leb.
  destruct (date_trichotomy a b) as [H | [H | H]].
  - rewrite H. cbn. symmetry. apply Z.leb_le.
    apply date_ltb_toordinal in H; auto. lia.
  - subst b. rewrite date_eqb_refl, orb_true_r. symmetry.
    apply Z.leb_le. lia.
  - pose proof (date_ltb_toordinal b a Hb Ha H) as Hlt.
    destruct (date_ltb a b) eqn:E1.
    { apply date_ltb_toordinal in E1; auto. lia. }
    destruct (date_eqb a b) eqn:E2.
    { apply date_eqb_eq in E2. subst b. lia. }
    cbn. symmetry. apply Z.leb_gt. lia.
Qed.


(** No valid date lies after 9999-12-31. *)
Lemma date_last (d : date) :
  valid_date d = true -> date_leb (mkdate 9999 12 31) d = true ->
  d = mkdate 9999 12 31.
Proof.
  rewrite valid_date_iff. destruct d as [y m d]. cbn [year month day].
  intros (Hy & Hm & Hd). pose proof (days_in_month_bounds y m Hm).
  unfold date_leb, date_ltb, date_eqb. cbn [year month day]. bool_to_prop.
  intros H'. f_equal; lia.
Qed.

Lemma weekday_range (d : date) : 0 <= weekday d < 7.
Proof. unfold weekday. apply Z.mod_pos_bound. lia. Qed.

Lemma day_name_of_weekday (w : Z) :
  0 <= w < 5 -> exists name, day_name_of w = Ok name /\ In name (keys WEEKDAY_MAP).
Proof.
  intros Hw.
  assert (H : w = 0 \/ w = 1 \/ w = 2 \/ w = 3 \/ w = 4) by lia.
  destruct H as [-> | [-> | [-> | [-> | ->]]]]; eexists;
    (split; [reflexivity | cbn; tauto]).
Qed.

(** ** The loop and its events *)

Section LoopFacts.
Variable clock : nat -> datetime.

Lemma event_blocks_app (n : nat) (xs ys : list event) :
  event_blocks clock n (xs ++ ys)
  = event_blocks clock n xs ++ event_blocks clock (n + List.length xs) ys.
Proof.
  revert n. induction xs as [ | x xs IH]; intros n; cbn [event_blocks app List.length].
  - rewrite Nat.add_0_r. reflexivity.
  - rewrite IH, <- app_assoc, Nat.add_succ_r. reflexivity.
Qed.

Lemma event_blocks_length (n : nat) (evs : list event) :
  List.length (event_blocks clock n evs) = (9 * List.length evs)%nat.
Proof.
  revert n. induction evs as [ | ev evs IH]; intros n; [reflexivity | ].
  cbn [event_blocks]. rewrite length_app, IH. cbn [event_block List.length]. lia.
Qed.

Lemma create_event_block (start end_ : datetime) (location : string) (n : nat) :
  create_event clock (make_uid start location) start end_ location n
  = Ok (event_block (clock n) (mkevent start end_ location), S n).
Proof. reflexivity. Qed.

Lemma for_sessions_events (base_dt : datetime) (its : list (string * string))
  (events : list string) (n : nat) :
  for_sessions clock base_dt its events n
  = Ok (events ++ event_blocks clock n (map (session_event base_dt) its),
        (n + List.length its)%nat).
Proof.
  revert events n. induction its as [ | [session location] rest IH];
    intros events n.
  - cbn. rewrite app_nil_r, Nat.add_0_r. reflexivity.
  - cbn [for_sessions map event_blocks List.length].
    unfold session_event at 1. cbn [fst snd].
    destruct (session_window base_dt session) as [start end_].
    unfold bind. rewrite create_event_block, IH, <- app_assoc.
    rewrite Nat.add_succ_r. reflexivity.
Qed.

(** The loop body appends the blocks of [day_events], or raises what
    [day_events] raises. *)
Lemma visit_day_events (schedule : template) (d : date)
  (events : list string) (n : nat) :
  visit_day clock schedule d events n
  = match day_events schedule d with
    | Ok evs => Ok (events ++ event_blocks clock n evs, (n + List.length evs)%nat)
    | Raise e => Raise e
    end.
Proof.
  unfold visit_day, day_events.
  destruct (weekday d <? 5);
    [ | cbn; rewrite app_nil_r, Nat.add_0_r; reflexivity].
  unfold bind at 1.
  destruct (day_name_of (weekday d)) as [day_name | e]; cbn [lift obind];
    [ | reflexivity].
  unfold bind at 1, contains, getitem.
  destruct (get (get_week_number_in_month d) schedule) as [days | ];
    cbn [lift obind];
    [ | cbn; rewrite app_nil_r, Nat.add_0_r; reflexivity].
  destruct (get day_name days) as [sessions | ]; cbn [lift obind];
    [ | cbn; rewrite app_nil_r, Nat.add_0_r; reflexivity].
  unfold bind at 1. cbn [lift].
  destruct (option_eqb (get "AM" sessions) (get "PM" sessions)).
  - unfold bind at 1.
    destruct (get "AM" sessions) as [location | ]; cbn [lift obind];
      [ | reflexivity].
    unfold bind, full_day_event, at_time. rewrite create_event_block.
    cbn [ret event_blocks List.length]. rewrite app_nil_r, Nat.add_1_r.
    reflexivity.
  - rewrite for_sessions_events. unfold items. rewrite length_map.
    reflexivity.
Qed.

Lemma while_loop_events (fuel : nat) (schedule : template)
  (end_date current_date : date) (events : list string) (n : nat) :
  while_loop clock fuel schedule end_date current_date events n
  = match events_loop fuel schedule end_date current_date with
    | Ok evs => Ok (events ++ event_blocks clock n evs, (n + List.length evs)%nat)
    | Raise e => Raise e
    end.
Proof.
  revert current_date events n.
  induction fuel as [ | fuel IH]; intros cur events n;
    cbn [while_loop events_loop];
    (destruct (date_leb cur end_date);
     [ | cbn; rewrite app_nil_r, Nat.add_0_r; reflexivity]).
  - reflexivity.
  - unfold bind at 1. rewrite visit_day_events.
    destruct (day_events schedule cur) as [evs | e]; cbn [obind];
      [ | reflexivity].
    unfold bind at 1.
    destruct (add_one_day cur) as [next | e]; cbn [lift obind];
      [ | reflexivity].
    rewrite IH.
    destruct (events_loop fuel schedule end_date next) as [rest | e];
      cbn [obind]; [ | reflexivity].
    rewrite event_blocks_app, length_app, <- app_assoc, Nat.add_assoc.
    reflexivity.
Qed.

(** [generate_events] returns the blocks of its planned events. *)
Lemma generate_events_events (start_date end_date : date)
  (schedule : template) (n : nat) :
  generate_events clock start_date end_date schedule n
  = match planned_events start_date end_date schedule with
    | Ok evs => Ok (event_blocks clock n evs, (n + List.length evs)%nat)
    | Raise e => Raise e
    end.
Proof.
  unfold generate_events, planned_events. rewrite while_loop_events.
  reflexivity.
Qed.

End LoopFacts.

(** ** The events of a day *)

Lemma day_events_weekend (schedule : template) (d : date) :
  5 <= weekday d -> day_events schedule d = Ok [].
Proof.
  intros Hw. unfold day_events.
  destruct (weekday d <? 5) eqn:E; [apply Z.ltb_lt in E; lia | reflexivity].
Qed.

(** On a weekday the events are read off the template entry. *)
Lemma day_events_weekday (schedule : template) (d : date) :
  weekday d < 5 ->
  day_events schedule d
  = match template_entry schedule d with
    | None => Ok []
    | Some sessions =>
        if option_eqb (get "AM" sessions) (get "PM" sessions) then
          let? location := getitem "AM" sessions in
          Ok [full_day_event d location]
        else Ok (map (session_event (combine_midnight d)) (items sessions))
    end.
Proof.
  intros Hw. unfold day_events, template_entry.
  pose proof (weekday_range d) as Hr.
  destruct (day_name_of_weekday (weekday d)) as (name & -> & _); [lia | ].
  apply Z.ltb_lt in Hw. rewrite Hw. cbn [obind].
  destruct (get (get_week_number_in_month d) schedule) as [days | ];
    [ | reflexivity].
  destruct (get name days); reflexivity.
Qed.

Lemma session_event_dates (d : date) (it : string * string) :
  dt_date (ev_start (session_event (combine_midnight d) it)) = d
  /\ dt_date (ev_end (session_event (combine_midnight d) it)) = d.
Proof.
  unfold session_event, session_window.
  destruct (String.eqb (fst it) "AM"); split; reflexivity.
Qed.

(** Every event of a day starts and ends on that day, a weekday. *)
Lemma day_events_dates (schedule : template) (d : date)
  (evs : list event) (ev : event) :
  day_events schedule d = Ok evs -> In ev evs ->
  weekday d < 5 /\ dt_date (ev_start ev) = d /\ dt_date (ev_end ev) = d.
Proof.
  intros Hday Hin.
  destruct (Z.lt_ge_cases (weekday d) 5) as [Hw | Hw].
  2:{ rewrite day_events_weekend in Hday by exact Hw.
      injection Hday as <-. destruct Hin. }
  split; [exact Hw | ].
  rewrite day_events_weekday in Hday by exact Hw.
  destruct (template_entry schedule d) as [sessions | ].
  2:{ injection Hday as <-. destruct Hin. }
  destruct (option_eqb (get "AM" sessions) (get "PM" sessions)).
  - destruct (getitem "AM" sessions) as [location | e]; [ | discriminate].
    cbn [obind] in Hday. injection Hday as <-.
    destruct Hin as [<- | []]. split; reflexivity.
  - injection Hday as <-. apply in_map_iff in Hin.
    destruct Hin as (it & <- & _). apply session_event_dates.
Qed.

(** The loop body fails in one way only: the entry of a weekday has
    neither an "AM" nor a "PM" key, and [sessions["AM"]] raises. *)
Lemma day_events_raises (schedule : template) (d : date) (e : exn) :
  day_events schedule d = Raise e <->
  e = KeyError /\ weekday d < 5
  /\ exists sessions, template_entry schedule d = Some sessions
       /\ get "AM" sessions = None /\ get "PM" sessions = None.
Proof.
  destruct (Z.lt_ge_cases (weekday d) 5) as [Hw | Hw].
  2:{ rewrite day_events_weekend by exact Hw. split; [discriminate | lia]. }
  rewrite day_events_weekday by exact Hw.
  destruct (template_entry schedule d) as [sessions | ].
  2:{ split; [discriminate | intros (_ & _ & s & [=] & _)]. }
  unfold getitem.
  destruct (get "AM" sessions) as [a | ] eqn:Ea;
    destruct (get "PM" sessions) as [p | ] eqn:Ep; cbn [option_eqb obind].
  - destruct (String.eqb a p);
      (split; [discriminate | intros (_ & _ & s & [= <-] & H1 & _);
                              congruence]).
  - split; [discriminate | intros (_ & _ & s & [= <-] & H1 & _); congruence].
  - split; [discriminate | intros (_ & _ & s & [= <-] & H1 & H2); congruence].
  - split.
    + intros [= <-]. repeat split; auto. exists sessions. auto.
    + intros (-> & _ & _). reflexivity.
Qed.



(** ** The events of a run *)

Section RunFacts.
Variable schedule : template.
Variable end_date : date.
Hypothesis end_valid : valid_date end_date = true.

(** Every event of a run belongs to a valid date of the range. *)
Lemma events_loop_sound (fuel : nat) (cur : date) (evs : list event) (ev : event) :
  valid_date cur = true ->
  events_loop fuel schedule end_date cur = Ok evs -> In ev evs ->
  exists d evs_d,
    valid_date d = true
    /\ toordinal cur <= toordinal d <= toordinal end_date
    /\ day_events schedule d = Ok evs_d /\ In ev evs_d.
Proof.
  revert cur evs. induction fuel as [ | fuel IH]; intros cur evs Hcur;
    cbn [events_loop]; rewrite (date_leb_toordinal cur end_date Hcur end_valid);
    destruct (toordinal cur <=? toordinal end_date) eqn:Hle;
    try discriminate; try (intros [= <-] []).
  apply Z.leb_le in Hle.
  destruct (day_events schedule cur) as [evs_d | e] eqn:Hday;
    cbn [obind]; [ | discriminate].
  destruct (add_one_day cur) as [next | e] eqn:Hnext;
    cbn [obind]; [ | discriminate].
  destruct (add_one_day_ok cur next Hcur Hnext) as [Hvalid Hord].
  destruct (events_loop fuel schedule end_date next) as [rest | e] eqn:Hrest;
    cbn [obind]; [ | discriminate].
  intros [= <-] Hin. apply in_app_or in Hin. destruct Hin as [Hin | Hin].
  - exists cur, evs_d. repeat split; auto; lia.
  - destruct (IH next rest Hvalid Hrest Hin) as (d & evs' & Hd & Hr & H1 & H2).
    exists d, evs'. repeat split; auto; lia.
Qed.


(** A run fails in two ways only: the body fails on a date of the
    range, or the range ends on the last representable day and the final
    increment overflows.  In particular the iteration budget suffices. *)
Lemma events_loop_raises (fuel : nat) (cur : date) (e : exn) :
  valid_date cur = true ->
  (Z.to_nat (toordinal end_date - toordinal cur + 1) <= fuel)%nat ->
  events_loop fuel schedule end_date cur = Raise e ->
  (e = KeyError
   /\ exists d, valid_date d = true
        /\ toordinal cur <= toordinal d <= toordinal end_date
        /\ day_events schedule d = Raise KeyError)
  \/ (e = OverflowError /\ end_date = mkdate 9999 12 31
      /\ toordinal cur <= toordinal end_date).
Proof.
  revert cur. induction fuel as [ | fuel IH]; intros cur Hcur Hfuel;
    cbn [events_loop]; rewrite (date_leb_toordinal cur end_date Hcur end_valid);
    destruct (toordinal cur <=? toordinal end_date) eqn:Hle;
    try discriminate; apply Z.leb_le in Hle; [lia | ].
  destruct (day_events schedule cur) as [evs_d | e'] eqn:Hday; cbn [obind].
  2:{ intros [= <-]. left.
      pose proof (proj1 (day_events_raises _ _ _) Hday) as (-> & _).
      split; [reflexivity | ]. exists cur. repeat split; auto; lia. }
  destruct (add_one_day cur) as [next | e'] eqn:Hnext; cbn [obind].
  2:{ intros [= <-]. right.
      destruct (add_one_day_raises cur e' Hcur Hnext) as [-> ->].
      split; [reflexivity | ]. split; [ | exact Hle].
      apply date_last; [exact end_valid | ].
      rewrite date_leb_toordinal by auto. apply Z.leb_le. exact Hle. }
  destruct (add_one_day_ok cur next Hcur Hnext) as [Hvalid Hord].
  destruct (events_loop fuel schedule end_date next) as [rest | e'] eqn:Hrest;
    cbn [obind]; [discriminate | ].
  intros [= <-].
  destruct (IH next Hvalid ltac:(lia) Hrest)
    as [(-> & d & Hd & Hr & Hraise) | (-> & -> & Hr)].
  - left. split; [reflexivity | ]. exists d. repeat split; auto; lia.
  - right. repeat split; auto; lia.
Qed.

End RunFacts.

(** ** Template entries *)


(** A well-formed entry is empty, holds one session, or holds both in
    one of the two insertion orders. *)
Lemma session_keys_cases (sessions : sessions_dict) :
  session_keys_ok sessions = true ->
  sessions = []
  \/ (exists a, sessions = [("AM", a)])
  \/ (exists p, sessions = [("PM", p)])
  \/ (exists a p, sessions = [("AM", a); ("PM", p)])
  \/ (exists a p, sessions = [("PM", p); ("AM", a)]).
Proof.
  unfold session_keys_ok. rewrite andb_true_iff. intros [Huniq Hkeys].
  destruct sessions as [ | [k1 v1] [ | [k2 v2] [ | [k3 v3] rest]]];
    cbn [keys map fst forallb] in Hkeys;
    repeat rewrite ?andb_true_iff, ?orb_true_iff, ?String.eqb_eq in Hkeys.
  - left. reflexivity.
  - right. destruct Hkeys as [[-> | ->] _]; [left | right; left]; eauto.
  - right. right. right.
    destruct Hkeys as ([-> | ->] & [-> | ->] & _);
      try (cbn in Huniq; discriminate); [left | right]; eauto.
  - exfalso.
    destruct Hkeys as ([-> | ->] & [-> | ->] & [-> | ->] & _);
      cbn in Huniq; rewrite ?andb_true_iff in Huniq;
      intuition discriminate.
Qed.

Lemma get_In {K V : Type} `{Key K} (k : K) (d : dict K V) (v : V) :
  get k d = Some v -> In (k, v) d.
Proof.
  induction d as [ | [k' v'] d IH]; cbn [get]; [discriminate | ].
  destruct (key_eqb_spec k k') as [-> | _].
  - intros [= ->]. left. reflexivity.
  - intros Hget. right. apply IH. exact Hget.
Qed.

(** A property of all entries holds of the entry of every date. *)
Lemma all_entries_entry (P : sessions_dict -> bool) (schedule : template)
  (d : date) (sessions : sessions_dict) :
  all_entries P schedule = true ->
  template_entry schedule d = Some sessions -> P sessions = true.
Proof.
  unfold all_entries, template_entry, items. intros Hall.
  destruct (day_name_of (weekday d)) as [name | ]; [ | discriminate].
  destruct (get (get_week_number_in_month d) schedule) as [days | ] eqn:Hw;
    [ | discriminate].
  intros Hd. apply get_In in Hw, Hd.
  rewrite forallb_forall in Hall. specialize (Hall _ Hw). cbn [snd] in Hall.
  rewrite forallb_forall in Hall. exact (Hall _ Hd).
Qed.

(** ** Runs of [generate_events] *)

Section GenerateFacts.
Variable clock : nat -> datetime.
Variables start_date end_date : date.
Variable schedule : template.
Hypothesis start_valid : valid_date start_date = true.
Hypothesis end_valid : valid_date end_date = true.




End GenerateFacts.

(** ** Week of month *)

(** C5: for every date, [get_week_number_in_month] is
    floor((day - 1) / 7) + 1 of the day of the month; days 1-7 are
    week 1, 8-14 week 2, 15-21 week 3, 22-28 week 4 and 29-31 week 5. *)
Theorem week_number_in_month_formula (d : date) :
  valid_date d = true ->
  get_week_number_in_month d = (day d - 1) / 7 + 1
  /\ (1 <= day d <= 7 -> get_week_number_in_month d = 1)
  /\ (8 <= day d <= 14 -> get_week_number_in_month d = 2)
  /\ (15 <= day d <= 21 -> get_week_number_in_month d = 3)
  /\ (22 <= day d <= 28 -> get_week_number_in_month d = 4)
  /\ (29 <= day d <= 31 -> get_week_number_in_month d = 5)
  /\ 1 <= get_week_number_in_month d <= 5.
Proof.
  intros Hvalid. apply valid_date_iff in Hvalid.
  destruct Hvalid as (_ & Hm & Hd).
  pose proof (days_in_month_bounds (year d) (month d) Hm) as Hdim.
  assert (Hw : get_week_number_in_month d = (day d - 1) / 7 + 1).
  { unfold get_week_number_in_month, days_between, replace_day1, toordinal,
      ymd2ord. cbn [year month day]. f_equal. f_equal. lia. }
  rewrite Hw.
  repeat match goal with
         | |- _ /\ _ => split
         | |- (_ <= _ <= _) -> _ => intros ?
         end;
    Z.to_euclidean_division_equations; lia.
Qed.

Lemma week_number_in_month_formula_witness :
  valid_date (mkdate 2025 10 29) = true
  /\ get_week_number_in_month (mkdate 2025 10 29) = 5.
Proof.
  split; [reflexivity | ].
  apply (week_number_in_month_formula (mkdate 2025 10 29) eq_refl).
  cbn. split; discriminate.
Defined.

(** ** What a day emits *)



Lemma day_events_absent (schedule : template) (d : date) :
  template_entry schedule d = None -> day_events schedule d = Ok [].
Proof.
  intros Hentry. destruct (Z.lt_ge_cases (weekday d) 5) as [Hw | Hw].
  - rewrite day_events_weekday by exact Hw. rewrite Hentry. reflexivity.
  - apply day_events_weekend. exact Hw.
Qed.

(** A day emits at most two events when its entry, if any, has its
    keys among "AM" and "PM". *)
Lemma day_events_at_most_two (schedule : template) (d : date)
  (evs : list event) :
  (forall sessions, template_entry schedule d = Some sessions ->
     session_keys_ok sessions = true) ->
  day_events schedule d = Ok evs -> (List.length evs <= 2)%nat.
Proof.
  intros Hkeys Hday.
  destruct (Z.lt_ge_cases (weekday d) 5) as [Hw | Hw].
  2:{ rewrite day_events_weekend in Hday by exact Hw.
      injection Hday as <-. cbn. lia. }
  rewrite day_events_weekday in Hday by exact Hw.
  destruct (template_entry schedule d) as [sessions | ].
  2:{ injection Hday as <-. cbn. lia. }
  destruct (option_eqb (get "AM" sessions) (get "PM" sessions)).
  - destruct (getitem "AM" sessions); [ | discriminate].
    injection Hday as <-. cbn. lia.
  - injection Hday as <-. rewrite length_map.
    destruct (session_keys_cases sessions (Hkeys sessions eq_refl))
      as [-> | [(a & ->) | [(p & ->) | [(a & p & ->) | (a & p & ->)]]]];
      cbn; lia.
Qed.







(** ** Text *)

Lemma rstrip_rstrip (s : string) : rstrip (rstrip s) = rstrip s.
Proof.
  induction s as [ | c s IH]; [reflexivity | ]. cbn [rstrip].
  destruct (rstrip s) as [ | c' r] eqn:E.
  - destruct (isspace c) eqn:Hc; [reflexivity | ].
    cbn [rstrip]. rewrite Hc. reflexivity.
  - cbn [rstrip]. cbn [rstrip] in IH.
    destruct (rstrip r) as [ | c'' r'] eqn:E'.
    + destruct (isspace c'); [discriminate | ]. rewrite IH. reflexivity.
    + rewrite IH. reflexivity.
Qed.

(** Text that does not begin with a space keeps its first character
    under [rstrip]. *)
Lemma rstrip_head (c : ascii) (s : string) :
  isspace c = false -> exists r, rstrip (String c s) = String c r.
Proof.
  intros Hc. cbn [rstrip]. rewrite Hc.
  destruct (rstrip s) as [ | c' r']; eauto.
Qed.

Lemma lstrip_head (s : string) :
  lstrip s = EmptyString
  \/ exists c r, lstrip s = String c r /\ isspace c = false.
Proof.
  induction s as [ | c s IH]; [left; reflexivity | ]. cbn [lstrip].
  destruct (isspace c) eqn:Hc; [exact IH | ]. right. eauto.
Qed.

(** [strip] is idempotent: stripped text is whitespace-trimmed. *)
Lemma strip_strip (s : string) : strip (strip s) = strip s.
Proof.
  unfold strip.
  destruct (lstrip_head s) as [-> | (c & r & -> & Hc)]; [reflexivity | ].
  destruct (rstrip_head c r Hc) as (r' & Hr). rewrite Hr.
  cbn [lstrip]. rewrite Hc, <- Hr. apply rstrip_rstrip.
Qed.

Lemma nonempty_true (s : string) : nonempty s = true <-> s <> EmptyString.
Proof.
  destruct s; cbn; split; congruence.
Qed.

(** Text without white space is its own [strip]. *)
Lemma rstrip_no_space (s : string) :
  filter_str isspace s = EmptyString -> rstrip s = s.
Proof.
  induction s as [ | c s IH]; [reflexivity | ]. cbn [filter_str rstrip].
  destruct (isspace c); [discriminate | ]. intros H. rewrite (IH H).
  destruct s; reflexivity.
Qed.

Lemma strip_no_space (s : string) :
  filter_str isspace s = EmptyString -> strip s = s.
Proof.
  intros H. unfold strip.
  assert (Hl : lstrip s = s).
  { destruct s as [ | c s]; [reflexivity | ]. cbn [filter_str] in H.
    cbn [lstrip]. destruct (isspace c); [discriminate | reflexivity]. }
  rewrite Hl. apply rstrip_no_space. exact H.
Qed.

Lemma uid_char_not_space (c : ascii) : uid_char c = true -> isspace c = false.
Proof.
  destruct c as [[] [] [] [] [] [] [] []]; vm_compute; congruence.
Qed.

Lemma filter_uid_no_space (s : string) :
  filter_str isspace (filter_str uid_char s) = EmptyString.
Proof.
  induction s as [ | c s IH]; [reflexivity | ]. cbn [filter_str].
  destruct (uid_char c) eqn:Hc; [ | exact IH].
  cbn [filter_str]. rewrite (uid_char_not_space c Hc). exact IH.
Qed.

(** [sanitize_uid] is the filter: its [strip] finds nothing to remove. *)
Lemma sanitize_uid_filter (text : string) :
  sanitize_uid text = filter_str uid_char text.
Proof.
  unfold sanitize_uid. apply strip_no_space, filter_uid_no_space.
Qed.

(** On ASCII characters Python's class is the specification's. *)
Lemma uid_char_ascii (c : ascii) :
  in_range 0 127 c = true -> uid_char c = spec_uid_char c.
Proof.
  destruct c as [[] [] [] [] [] [] [] []]; vm_compute; congruence.
Qed.

Lemma filter_uid_ascii (s : string) :
  is_ascii s = true -> filter_str uid_char s = spec_sanitize s.
Proof.
  unfold spec_sanitize.
  induction s as [ | c s IH]; [reflexivity | ]. cbn [is_ascii filter_str].
  rewrite andb_true_iff. intros [Hc Hs].
  rewrite (uid_char_ascii c Hc), (IH Hs). reflexivity.
Qed.

(** ** Lines of the output *)

(** Line [j] of the [k]-th block. *)
Lemma nth_error_event_blocks (clock : nat -> datetime) (evs : list event)
  (n k j : nat) (ev : event) :
  nth_error evs k = Some ev -> (j < 9)%nat ->
  nth_error (event_blocks clock n evs) (9 * k + j)
  = nth_error (event_block (clock (n + k)%nat) ev) j.
Proof.
  revert n k. induction evs as [ | ev' evs IH]; intros n k Hk Hj.
  - destruct k; discriminate.
  - cbn [event_blocks]. destruct k as [ | k].
    + injection Hk as ->. rewrite Nat.add_0_r, Nat.mul_0_r, Nat.add_0_l.
      apply nth_error_app1. cbn. exact Hj.
    + cbn [nth_error] in Hk.
      assert (Hlen : List.length (event_block (clock n) ev') = 9%nat)
        by reflexivity.
      rewrite nth_error_app2 by lia.
      replace (9 * S k + j - List.length (event_block (clock n) ev'))%nat
        with (9 * k + j)%nat by lia.
      rewrite (IH (S n) k Hk Hj), Nat.add_succ_r. reflexivity.
Qed.

Lemma digit_ascii (n : Z) : in_range 0 127 (digit n) = true.
Proof.
  unfold digit. pose proof (Z.mod_pos_bound n 10 ltac:(lia)) as H.
  assert (Hc : n mod 10 = 0 \/ n mod 10 = 1 \/ n mod 10 = 2 \/ n mod 10 = 3
               \/ n mod 10 = 4 \/ n mod 10 = 5 \/ n mod 10 = 6
               \/ n mod 10 = 7 \/ n mod 10 = 8 \/ n mod 10 = 9) by lia.
  repeat (destruct Hc as [Hc | Hc]; [rewrite Hc; reflexivity | ]).
  rewrite Hc. reflexivity.
Qed.

Lemma is_ascii_app (a b : string) :
  is_ascii (a ++ b) = is_ascii a && is_ascii b.
Proof.
  induction a as [ | c a IH]; [reflexivity | ]. cbn [append is_ascii].
  rewrite IH, andb_assoc. reflexivity.
Qed.

Lemma strftime_ascii (dt : datetime) : is_ascii (strftime dt) = true.
Proof.
  unfold strftime, pad4, pad2. cbn [append is_ascii].
  rewrite !digit_ascii. reflexivity.
Qed.

Lemma make_uid_ascii (start : datetime) (location : string) :
  is_ascii location = true -> is_ascii (make_uid start location) = true.
Proof.
  intros H. unfold make_uid.
  rewrite !is_ascii_app, strftime_ascii, H. reflexivity.
Qed.

(** C6, as the code has it: in every run, the UID line of the [k]-th
    event is "UID:" followed by the start timestamp (YYYYMMDDTHHMMSS), a
    hyphen, the label and "@schedule", with every character removed
    that is neither alphanumeric in Python's sense ([str.isalnum], which
    also accepts the letters and digits beyond ASCII) nor a hyphen nor
    an underscore; for a label of ASCII characters that is every
    character outside A-Z, a-z, 0-9, hyphen and underscore.  The line
    is a function of the start timestamp and the label: the clock does
    not appear in it. *)
Theorem uid_line_sanitized (clock : nat -> datetime)
  (start_date end_date : date) (schedule : template)
  (n : nat) (lines : list string) (n' : nat) :
  generate_events clock start_date end_date schedule n = Ok (lines, n') ->
  exists evs,
    lines = event_blocks clock n evs
    /\ forall k ev, nth_error evs k = Some ev ->
         let text :=
           (strftime (ev_start ev) ++ "-" ++ ev_location ev
            ++ "@schedule")%string in
         nth_error lines (9 * k + 1)
         = Some ("UID:" ++ filter_str uid_char text)%string
         /\ (is_ascii (ev_location ev) = true ->
             nth_error lines (9 * k + 1)
             = Some ("UID:" ++ spec_sanitize text)%string).
Proof.
  rewrite generate_events_events.
  destruct (planned_events start_date end_date schedule) as [evs | e];
    [ | discriminate].
  intros [= <- <-]. exists evs. split; [reflexivity | ].
  intros k ev Hk text.
  rewrite (nth_error_event_blocks clock evs n k 1 ev Hk) by lia.
  cbn [event_block nth_error]. fold (make_uid (ev_start ev) (ev_location ev)).
  rewrite sanitize_uid_filter. split; [reflexivity | ].
  intros Hascii. rewrite filter_uid_ascii; [reflexivity | ].
  apply make_uid_ascii. exact Hascii.
Qed.

Lemma uid_line_sanitized_witness :
  exists evs,
    event_blocks ticking 0 [full_day_event wed_oct_1 "Lab A"]
    = event_blocks ticking 0 evs
    /\ forall k ev, nth_error evs k = Some ev ->
         let text :=
           (strftime (ev_start ev) ++ "-" ++ ev_location ev
            ++ "@schedule")%string in
         nth_error (event_blocks ticking 0 [full_day_event wed_oct_1 "Lab A"])
           (9 * k + 1)
         = Some ("UID:" ++ filter_str uid_char text)%string
         /\ (is_ascii (ev_location ev) = true ->
             nth_error
               (event_blocks ticking 0 [full_day_event wed_oct_1 "Lab A"])
               (9 * k + 1)
             = Some ("UID:" ++ spec_sanitize text)%string).
Proof.
  apply (uid_line_sanitized ticking wed_oct_1 wed_oct_1 rooms 0
           (event_blocks ticking 0 [full_day_event wed_oct_1 "Lab A"]) 1
           eq_refl).
Defined.

(** C6 as stated fails: the label "Cafe" written with U+00E9 keeps its
    last letter in the UID line, although that letter lies outside A-Z,
    a-z, 0-9, hyphen and underscore. *)
Lemma uid_line_keeps_non_ascii_letter :
  generate_events ticking wed_oct_1 wed_oct_1 cafe_wednesday 0%nat
  = Ok (event_block (ticking 0%nat) (morning_event wed_oct_1 cafe), 1%nat)
  /\ nth_error (event_block (ticking 0%nat) (morning_event wed_oct_1 cafe)) 1
     = Some ("UID:20251001T080000-" ++ cafe ++ "schedule")%string
  /\ nth_error (event_block (ticking 0%nat) (morning_event wed_oct_1 cafe)) 1
     <> Some ("UID:" ++ spec_sanitize
                (strftime (mkdatetime wed_oct_1 8 0 0) ++ "-" ++ cafe
                 ++ "@schedule"))%string.
Proof.
  split; [vm_compute; reflexivity | ].
  split; [reflexivity | ]. vm_compute. discriminate.
Qed.

(** ** Order of the events *)




Section OrderFacts.
Variable schedule : template.
Variable end_date : date.
Hypothesis end_valid : valid_date end_date = true.



End OrderFacts.

(** ** The calendar document *)

Lemma generate_ics_lines_events (clock : nat -> datetime)
  (start_date end_date : date) (schedule : template) (n : nat) :
  generate_ics_lines clock start_date end_date schedule n
  = match planned_events start_date end_date schedule with
    | Ok evs =>
        Ok (ICS_HEADER ++ event_blocks clock n evs ++ ["END:VCALENDAR"],
            (n + List.length evs)%nat)
    | Raise e => Raise e
    end.
Proof.
  unfold generate_ics_lines, bind. rewrite generate_events_events.
  destruct (planned_events start_date end_date schedule); [ | reflexivity].
  cbn [ret]. rewrite <- app_assoc. reflexivity.
Qed.

Lemma generate_ics_join (clock : nat -> datetime)
  (start_date end_date : date) (schedule : template) (n : nat) :
  generate_ics clock start_date end_date schedule n
  = match generate_ics_lines clock start_date end_date schedule n with
    | Ok (lines, n') => Ok (join newline lines, n')
    | Raise e => Raise e
    end.
Proof.
  unfold generate_ics, bind.
  destruct (generate_ics_lines clock start_date end_date schedule n)
    as [[lines n'] | e]; reflexivity.
Qed.




(** ** Independence of the clock *)

Lemma event_blocks_same_but_stamp (clock1 clock2 : nat -> datetime)
  (n : nat) (evs : list event) :
  Forall2 same_but_stamp (event_blocks clock1 n evs)
    (event_blocks clock2 n evs).
Proof.
  revert n. induction evs as [ | ev evs IH]; intros n; [constructor | ].
  cbn [event_blocks]. apply Forall2_app; [ | apply IH].
  unfold event_block.
  repeat (constructor; [try (left; reflexivity) | ]); [ | constructor].
  right. eauto.
Qed.

Lemma Forall2_same (lines : list string) :
  Forall2 same_but_stamp lines lines.
Proof.
  induction lines; constructor; [left; reflexivity | assumption].
Qed.

Lemma same_but_stamp_field (a b : string) :
  same_but_stamp a b -> field_line a = true -> a = b.
Proof.
  intros [Heq | (t1 & t2 & -> & _)]; [intros _; exact Heq | ].
  cbn. discriminate.
Qed.

(** C8: two runs of [generate_ics] on the same template and range that
    differ only in the instants their clocks return either both raise
    the same exception or both return; then their line lists have the
    same length and agree line for line, except that the two DTSTAMP
    lines of a block may carry different instants; in particular every
    UID, DTSTART, DTEND, SUMMARY and LOCATION line is the same in both,
    and the texts returned are the joins of these lines. *)
Theorem output_independent_of_clock (clock1 clock2 : nat -> datetime)
  (start_date end_date : date) (schedule : template) (n : nat) :
  match generate_ics_lines clock1 start_date end_date schedule n,
        generate_ics_lines clock2 start_date end_date schedule n with
  | Ok (lines1, n1), Ok (lines2, n2) =>
      n1 = n2
      /\ Forall2 same_but_stamp lines1 lines2
      /\ (forall i a b,
            nth_error lines1 i = Some a -> nth_error lines2 i = Some b ->
            field_line a = true -> a = b)
      /\ generate_ics clock1 start_date end_date schedule n
         = Ok (join newline lines1, n1)
      /\ generate_ics clock2 start_date end_date schedule n
         = Ok (join newline lines2, n2)
  | Raise e1, Raise e2 =>
      e1 = e2
      /\ generate_ics clock1 start_date end_date schedule n = Raise e1
      /\ generate_ics clock2 start_date end_date schedule n = Raise e2
  | _, _ => False
  end.
Proof.
  rewrite !generate_ics_join, !generate_ics_lines_events.
  destruct (planned_events start_date end_date schedule) as [evs | e];
    [ | auto].
  assert (H : Forall2 same_but_stamp
                (ICS_HEADER ++ event_blocks clock1 n evs ++ ["END:VCALENDAR"])
                (ICS_HEADER ++ event_blocks clock2 n evs ++ ["END:VCALENDAR"])).
  { apply Forall2_app; [apply Forall2_same | ].
    apply Forall2_app; [apply event_blocks_same_but_stamp | ].
    apply Forall2_same. }
  split; [reflexivity | ]. split; [exact H | ]. split; [ | auto].
  intros i a b Ha Hb. apply same_but_stamp_field.
  revert i Ha Hb. induction H as [ | x y l1 l2 Hxy _ IH]; intros i Ha Hb.
  - destruct i; discriminate.
  - destruct i as [ | i]; cbn [nth_error] in Ha, Hb.
    + congruence.
    + exact (IH i Ha Hb).
Qed.

(** ** Dictionaries *)

Section DictFacts.
Context {K V : Type} `{Key K}.

Lemma key_eqb_refl (k : K) : key_eqb k k = true.
Proof. destruct (key_eqb_spec k k); congruence. Qed.

Lemma key_eqb_neq (k k' : K) : k <> k' -> key_eqb k k' = false.
Proof. destruct (key_eqb_spec k k'); congruence. Qed.

Lemma get_setitem (k k' : K) (v : V) (d : dict K V) :
  get k' (setitem k v d) = if key_eqb k' k then Some v else get k' d.
Proof.
  induction d as [ | [k0 v0] d IH]; cbn [setitem get]; [reflexivity | ].
  destruct (key_eqb_spec k k0) as [-> | Hneq]; cbn [get].
  - destruct (key_eqb k' k0); reflexivity.
  - rewrite IH. destruct (key_eqb_spec k' k0) as [-> | Hneq'];
      [ | reflexivity].
    rewrite key_eqb_neq by congruence. reflexivity.
Qed.

Lemma contains_setitem (k k' : K) (v : V) (d : dict K V) :
  contains k' (setitem k v d) = key_eqb k' k || contains k' d.
Proof.
  unfold contains. rewrite get_setitem.
  destruct (key_eqb k' k); reflexivity.
Qed.

End DictFacts.

(** ** The template normalizer *)

Section NormalizerFacts.
Variable upper : string -> string.
Variable int_of_text : string -> option Z.

Lemma row_getitem_day (r : row) (day : string) :
  In day (keys WEEKDAY_MAP) -> exists cell, row_getitem r day = Ok cell.
Proof.
  cbn. intros [<- | [<- | [<- | [<- | [<- | []]]]]]; eexists; reflexivity.
Qed.

Lemma lookup_setitem (schedule : template) (week w' : Z)
  (days : dict string sessions_dict) (day' : string) :
  lookup (setitem week days schedule) w' day'
  = if w' =? week then get day' days else lookup schedule w' day'.
Proof.
  unfold lookup. rewrite get_setitem. cbn [key_eqb Key_Z].
  destruct (w' =? week); reflexivity.
Qed.

(** One pass of the inner loop rewrites one entry. *)
Lemma fill_day_spec (r : row) (week : Z) (ampm : string)
  (schedule : template) (day : string) :
  contains week schedule = true -> In day (keys WEEKDAY_MAP) ->
  exists schedule',
    fill_day r week ampm schedule day = Ok schedule'
    /\ (forall w', contains w' schedule' = contains w' schedule)
    /\ (forall w' day',
          lookup schedule' w' day'
          = if (w' =? week) && String.eqb day' day
            then Some (updated_entry r ampm day (lookup schedule week day))
            else lookup schedule w' day').
Proof.
  intros Hweek Hday. unfold fill_day, getitem, updated_entry, lookup.
  unfold contains in Hweek.
  destruct (get week schedule) as [days | ] eqn:Hget; [ | discriminate].
  cbn [obind]. destruct (row_getitem_day r day Hday) as (cell & ->).
  cbn [obind].
  assert (Hdom : forall (x : dict string sessions_dict) w',
            contains w' (setitem week x schedule) = contains w' schedule).
  { intros x w'. rewrite contains_setitem. cbn [key_eqb Key_Z].
    destruct (Z.eqb_spec w' week) as [-> | _]; [ | reflexivity].
    unfold contains. rewrite Hget. reflexivity. }
  assert (Hlook : forall (x : dict string sessions_dict) w' day',
            match get w' (setitem week x schedule) with
            | Some days0 => get day' days0
            | None => None
            end
            = if w' =? week then get day' x
              else match get w' schedule with
                   | Some days0 => get day' days0
                   | None => None
                   end).
  { intros x w' day'. rewrite get_setitem. cbn [key_eqb Key_Z].
    destruct (w' =? week); reflexivity. }
  destruct (get day days) as [sessions | ] eqn:Hd;
    [ assert (Hc : contains day days = true)
        by (unfold contains; rewrite Hd; reflexivity)
    | assert (Hc : contains day days = false)
        by (unfold contains; rewrite Hd; reflexivity) ];
    rewrite Hc; cbv iota.
  - destruct (nonempty (strip cell)).
    + rewrite Hd. cbn [obind]. eexists. split; [reflexivity | ].
      split; [apply Hdom | ]. intros w' day'. rewrite Hlook, get_setitem.
      cbn [key_eqb Key_string].
      destruct (Z.eqb_spec w' week) as [-> | _]; cbn [andb];
        [ | reflexivity].
      rewrite Hget. reflexivity.
    + eexists. split; [reflexivity | ].
      split; [apply Hdom | ]. intros w' day'. rewrite Hlook.
      destruct (Z.eqb_spec w' week) as [-> | _]; cbn [andb];
        [ | reflexivity].
      rewrite Hget.
      destruct (String.eqb_spec day' day) as [-> | _]; [exact Hd | reflexivity].
  - destruct (nonempty (strip cell)).
    + rewrite get_setitem. cbn [key_eqb Key_string].
      rewrite String.eqb_refl. cbn [obind]. eexists. split; [reflexivity | ].
      split; [apply Hdom | ]. intros w' day'. rewrite Hlook, !get_setitem.
      cbn [key_eqb Key_string].
      destruct (Z.eqb_spec w' week) as [-> | _]; cbn [andb];
        [ | reflexivity].
      rewrite Hget.
      destruct (String.eqb day' day); reflexivity.
    + eexists. split; [reflexivity | ].
      split; [apply Hdom | ]. intros w' day'. rewrite Hlook, get_setitem.
      cbn [key_eqb Key_string].
      destruct (Z.eqb_spec w' week) as [-> | _]; cbn [andb];
        [ | reflexivity].
      rewrite Hget.
      destruct (String.eqb day' day); reflexivity.
Qed.

(** The inner loop rewrites the entries of the days it visits. *)
Lemma fill_days_spec (r : row) (week : Z) (ampm : string)
  (days : list string) (schedule : template) :
  contains week schedule = true -> NoDup days ->
  (forall day, In day days -> In day (keys WEEKDAY_MAP)) ->
  exists schedule',
    for_each (fill_day r week ampm) days schedule = Ok schedule'
    /\ (forall w', contains w' schedule' = contains w' schedule)
    /\ (forall w' day',
          lookup schedule' w' day'
          = if (w' =? week) && existsb (String.eqb day') days
            then Some (updated_entry r ampm day' (lookup schedule week day'))
            else lookup schedule w' day').
Proof.
  revert schedule. induction days as [ | day rest IH];
    intros schedule Hweek Hnodup Hdays.
  - exists schedule. split; [reflexivity | ]. split; [reflexivity | ].
    intros w' day'. cbn [existsb]. rewrite andb_false_r. reflexivity.
  - apply NoDup_cons_iff in Hnodup. destruct Hnodup as [Hnotin Hnodup].
    destruct (fill_day_spec r week ampm schedule day Hweek
                (Hdays day (or_introl eq_refl))) as (s1 & Hstep & Hdom1 & Hlook1).
    destruct (IH s1) as (s2 & Hrest & Hdom2 & Hlook2).
    { rewrite Hdom1. exact Hweek. }
    { exact Hnodup. }
    { intros d Hd. apply Hdays. right. exact Hd. }
    exists s2. cbn [for_each]. rewrite Hstep. cbn [obind].
    split; [exact Hrest | ].
    split; [intros w'; rewrite Hdom2; apply Hdom1 | ].
    intros w' day'. rewrite Hlook2, !Hlook1. cbn [existsb].
    rewrite Z.eqb_refl. cbn [andb].
    destruct (w' =? week); cbn [andb]; [ | reflexivity].
    destruct (existsb (String.eqb day') rest) eqn:Hex.
    + rewrite orb_true_r. apply existsb_exists in Hex.
      destruct Hex as (x & Hx & Heq). apply String.eqb_eq in Heq. subst x.
      destruct (String.eqb_spec day' day) as [-> | _]; [contradiction | ].
      reflexivity.
    + rewrite orb_false_r.
      destruct (String.eqb_spec day' day) as [-> | _]; reflexivity.
Qed.

(** A row whose week converts rewrites the five entries of that week. *)
Lemma add_row_spec (schedule : template) (r : row) (week : Z) :
  py_int int_of_text (row_week r) = Ok week ->
  exists schedule',
    add_row upper int_of_text schedule r = Ok schedule'
    /\ (forall w', contains w' schedule' = (w' =? week) || contains w' schedule)
    /\ (forall w' day',
          lookup schedule' w' day'
          = if (w' =? week) && existsb (String.eqb day') (keys WEEKDAY_MAP)
            then Some (updated_entry r (upper (strip (row_ampm r))) day'
                         (lookup schedule week day'))
            else lookup schedule w' day').
Proof.
  intros Hweek. unfold add_row. rewrite Hweek. cbn [obind].
  set (s0 := if contains week schedule then schedule
             else setitem week [] schedule).
  assert (Hdom0 : forall w', contains w' s0 = (w' =? week) || contains w' schedule).
  { intros w'. unfold s0. destruct (contains week schedule) eqn:Hc.
    - destruct (Z.eqb_spec w' week) as [-> | _]; [exact Hc | reflexivity].
    - rewrite contains_setitem. reflexivity. }
  assert (Hlook0 : forall w' day', lookup s0 w' day' = lookup schedule w' day').
  { intros w' day'. unfold s0. destruct (contains week schedule) eqn:Hc;
      [reflexivity | ].
    rewrite lookup_setitem.
    destruct (Z.eqb_spec w' week) as [-> | _]; [ | reflexivity].
    unfold lookup, contains in *.
    destruct (get week schedule); [discriminate | reflexivity]. }
  destruct (fill_days_spec r week (upper (strip (row_ampm r)))
              (keys WEEKDAY_MAP) s0) as (s1 & Hrun & Hdom1 & Hlook1).
  { rewrite Hdom0, Z.eqb_refl. reflexivity. }
  { repeat constructor; cbn; intuition discriminate. }
  { auto. }
  exists s1. split; [exact Hrun | ].
  split; [intros w'; rewrite Hdom1; apply Hdom0 | ].
  intros w' day'. rewrite Hlook1, !Hlook0. reflexivity.
Qed.


Lemma add_row_raises (schedule : template) (r : row) (e : exn) :
  py_int int_of_text (row_week r) = Raise e ->
  add_row upper int_of_text schedule r = Raise e.
Proof. intros H. unfold add_row. rewrite H. reflexivity. Qed.

Lemma in_days (day : string) :
  existsb (String.eqb day) (keys WEEKDAY_MAP) = true <->
  In day (keys WEEKDAY_MAP).
Proof.
  rewrite existsb_exists. split.
  - intros (x & Hx & Heq). apply String.eqb_eq in Heq. subst x. exact Hx.
  - intros Hin. exists day. split; [exact Hin | apply String.eqb_refl].
Qed.

(** Adding a row keeps a template normalized. *)
Lemma add_row_normalized (seen : list row) (schedule schedule' : template)
  (r : row) :
  normalized int_of_text seen schedule ->
  add_row upper int_of_text schedule r = Ok schedule' ->
  normalized int_of_text (seen ++ [r]) schedule'.
Proof.
  intros (Hweeks & Hdays & Hvalues & Horigin) Hadd.
  destruct (py_int int_of_text (row_week r)) as [week | e] eqn:Hweek.
  2:{ rewrite (add_row_raises schedule r e Hweek) in Hadd. discriminate. }
  destruct (add_row_spec schedule r week Hweek) as (s1 & Hrun & Hdom & Hlook).
  rewrite Hrun in Hadd. injection Hadd as <-.
  split; [ | split; [ | split]].
  - intros r' w Hin Hw. rewrite Hdom. apply in_app_or in Hin.
    destruct Hin as [Hin | [<- | []]].
    + rewrite (Hweeks r' w Hin Hw). apply orb_true_r.
    + assert (w = week) by congruence. subst w.
      rewrite Z.eqb_refl. reflexivity.
  - intros w day Hw Hday. rewrite Hlook.
    rewrite (proj2 (in_days day) Hday), andb_true_r.
    destruct (Z.eqb_spec w week) as [-> | Hneq]; [eauto | ].
    rewrite Hdom in Hw. apply Z.eqb_neq in Hneq. rewrite Hneq in Hw.
    apply Hdays; assumption.
  - intros w day sessions k v. rewrite Hlook.
    destruct ((w =? week) && existsb (String.eqb day) (keys WEEKDAY_MAP));
      [ | apply Hvalues].
    intros [= <-]. unfold updated_entry.
    assert (Hold : forall v0,
              get k match lookup schedule week day with
                    | Some s => s
                    | None => []
                    end = Some v0 ->
              v0 <> EmptyString /\ strip v0 = v0).
    { intros v0. destruct (lookup schedule week day) as [s | ] eqn:Hs;
        [apply (Hvalues week day s k v0 Hs) | discriminate]. }
    destruct (row_getitem r day) as [cell | ]; [ | apply Hold].
    destruct (nonempty (strip cell)) eqn:Hne; [ | apply Hold].
    rewrite get_setitem.
    destruct (key_eqb k (upper (strip (row_ampm r)))); [ | apply Hold].
    intros [= <-]. split; [apply nonempty_true; exact Hne | apply strip_strip].
  - intros w day sessions. rewrite Hlook.
    destruct (Z.eqb_spec w week) as [-> | Hneq]; cbn [andb].
    + destruct (existsb (String.eqb day) (keys WEEKDAY_MAP)).
      * intros [= <-]. unfold updated_entry.
        assert (Hold : match lookup schedule week day with
                       | Some s => s
                       | None => []
                       end <> [] ->
                       exists r0 cell,
                         In r0 (seen ++ [r])
                         /\ py_int int_of_text (row_week r0) = Ok week
                         /\ row_getitem r0 day = Ok cell
                         /\ strip cell <> EmptyString).
        { destruct (lookup schedule week day) as [s | ] eqn:Hs;
            [ | congruence].
          intros Hne.
          destruct (Horigin week day s Hs Hne) as (r0 & cell & Hin & H1 & H2 & H3).
          exists r0, cell. repeat split; auto. apply in_or_app. auto. }
        destruct (row_getitem r day) as [cell | ] eqn:Hcell; [ | exact Hold].
        destruct (nonempty (strip cell)) eqn:Hne; [ | exact Hold].
        intros _. exists r, cell. repeat split; auto.
        -- apply in_or_app. right. left. reflexivity.
        -- apply nonempty_true. exact Hne.
      * intros Hs Hne.
        destruct (Horigin week day sessions Hs Hne)
          as (r0 & cell & Hin & H1 & H2 & H3).
        exists r0, cell. repeat split; auto. apply in_or_app. auto.
    + intros Hs Hne.
      destruct (Horigin w day sessions Hs Hne)
        as (r0 & cell & Hin & H1 & H2 & H3).
      exists r0, cell. repeat split; auto. apply in_or_app. auto.
Qed.

Lemma normalized_empty : normalized int_of_text [] [].
Proof.
  repeat split; try discriminate; try contradiction.
Qed.

Lemma for_each_add_row_normalized (df seen : list row)
  (schedule schedule' : template) :
  normalized int_of_text seen schedule ->
  for_each (add_row upper int_of_text) df schedule = Ok schedule' ->
  normalized int_of_text (seen ++ df) schedule'.
Proof.
  revert seen schedule. induction df as [ | r df IH];
    intros seen schedule Hnorm; cbn [for_each].
  - intros [= <-]. rewrite app_nil_r. exact Hnorm.
  - destruct (add_row upper int_of_text schedule r) as [s1 | e] eqn:Hadd;
      cbn [obind]; [ | discriminate].
    intros Hrest.
    replace (seen ++ r :: df) with ((seen ++ [r]) ++ df)
      by (rewrite <- app_assoc; reflexivity).
    apply (IH (seen ++ [r]) s1); [ | exact Hrest].
    apply (add_row_normalized seen schedule s1 r Hnorm Hadd).
Qed.



End NormalizerFacts.






Lemma output_independent_of_clock_witness :
  match generate_ics_lines ticking wed_oct_1 tue_oct_7 rooms 0%nat,
        generate_ics_lines stopped wed_oct_1 tue_oct_7 rooms 0%nat with
  | Ok (lines1, n1), Ok (lines2, n2) =>
      n1 = n2
      /\ Forall2 same_but_stamp lines1 lines2
      /\ (forall i a b,
            nth_error lines1 i = Some a -> nth_error lines2 i = Some b ->
            field_line a = true -> a = b)
      /\ generate_ics ticking wed_oct_1 tue_oct_7 rooms 0%nat
         = Ok (join newline lines1, n1)
      /\ generate_ics stopped wed_oct_1 tue_oct_7 rooms 0%nat
         = Ok (join newline lines2, n2)
  | Raise e1, Raise e2 =>
      e1 = e2
      /\ generate_ics ticking wed_oct_1 tue_oct_7 rooms 0%nat = Raise e1
      /\ generate_ics stopped wed_oct_1 tue_oct_7 rooms 0%nat = Raise e2
  | _, _ => False
  end.
Proof.
  exact (output_independent_of_clock ticking stopped wed_oct_1 tue_oct_7
           rooms 0%nat).
Defined.

(** A run from Wednesday 2025-10-01 to Tuesday 2025-10-07 over [rooms]:
    one block for Wednesday, two for Thursday, one for Friday. *)
Example rooms_first_week :
  generate_events ticking wed_oct_1 tue_oct_7 rooms 0%nat
  = Ok (event_blocks ticking 0
          [ full_day_event wed_oct_1 "Lab A";
            morning_event thu_oct_2 "RoomA";
            afternoon_event thu_oct_2 "RoomB";
            morning_event fri_oct_3 "Clinic" ], 4%nat)
  /\ event_block (ticking 0%nat) (full_day_event wed_oct_1 "Lab A")
     = [ "BEGIN:VEVENT";
         "UID:20251001T080000-LabAschedule";
         "DTSTAMP:20260115T093000Z";
         "DTSTART:20251001T080000";
         "DTEND:20251001T170000";
         "SUMMARY:Lab A";
         "LOCATION:Lab A";
         "X-APPLE-TRAVEL-ADVISORY-BEHAVIOR:DISABLED";
         "END:VEVENT" ].
Proof. split; vm_compute; reflexivity. Qed.

(** ** Entries without sessions *)

(** A template without an entry for a weekday leaves the events as
    they are. *)
Lemma visit_day_absent (clock : nat -> datetime) (schedule : template)
  (d : date) (events : list string) (n : nat) :
  template_entry schedule d = None ->
  visit_day clock schedule d events n = Ok (events, n).
Proof.
  intros Hentry. rewrite visit_day_events, (day_events_absent _ _ Hentry).
  cbn [event_blocks List.length]. rewrite app_nil_r, Nat.add_0_r.
  reflexivity.
Qed.

(** An entry with neither key makes the loop body raise [KeyError]. *)
Lemma visit_day_no_session (clock : nat -> datetime) (schedule : template)
  (d : date) (sessions : sessions_dict) (events : list string) (n : nat) :
  weekday d < 5 -> template_entry schedule d = Some sessions ->
  get "AM" sessions = None -> get "PM" sessions = None ->
  visit_day clock schedule d events n = Raise KeyError.
Proof.
  intros Hw Hentry Ham Hpm. rewrite visit_day_events.
  rewrite (proj2 (day_events_raises schedule d KeyError)); [reflexivity | ].
  repeat split; auto. exists sessions. auto.
Qed.

(** C1 fails on the code: Monday 2025-10-06 has an entry without
    sessions in [empty_monday], and both the loop body and the run raise
    [KeyError] instead of emitting nothing; the same happens with the
    template built from a table with a single filled cell, which passes
    the guard of the download button and has no session on Thursday
    2025-10-02. *)
Theorem entry_without_sessions_raises :
  template_entry empty_monday mon_oct_6 = Some []
  /\ visit_day ticking empty_monday mon_oct_6 [] 0%nat = Raise KeyError
  /\ generate_events ticking mon_oct_6 mon_oct_6 empty_monday 0%nat
     = Raise KeyError
  /\ build_schedule_from_df ascii_upper decimal_int one_cell
     = Ok one_cell_template
  /\ has_any_label one_cell_template = true
  /\ template_entry one_cell_template thu_oct_2 = Some []
  /\ generate_ics ticking wed_oct_1 thu_oct_2 one_cell_template 0%nat
     = Raise KeyError.
Proof.
  repeat split; vm_compute; reflexivity.
Qed.

(** * Further properties *)

(** ** Iteration budget and ranges *)

Section RangeFacts.
Variable schedule : template.
Variable end_date : date.
Hypothesis end_valid : valid_date end_date = true.

(** The result of the loop does not depend on the budget, once it
    covers the days left. *)
Lemma events_loop_fuel (fuel1 fuel2 : nat) (cur : date) :
  valid_date cur = true ->
  (Z.to_nat (toordinal end_date - toordinal cur + 1) <= fuel1)%nat ->
  (Z.to_nat (toordinal end_date - toordinal cur + 1) <= fuel2)%nat ->
  events_loop fuel1 schedule end_date cur
  = events_loop fuel2 schedule end_date cur.
Proof.
  revert fuel2 cur. induction fuel1 as [ | fuel1 IH];
    intros fuel2 cur Hcur H1 H2; destruct fuel2 as [ | fuel2];
    cbn [events_loop];
    rewrite (date_leb_toordinal cur end_date Hcur end_valid);
    destruct (toordinal cur <=? toordinal end_date) eqn:Hle;
    try reflexivity; apply Z.leb_le in Hle; try lia.
  destruct (day_events schedule cur) as [evs | e]; cbn [obind];
    [ | reflexivity].
  destruct (add_one_day cur) as [next | e] eqn:Hnext; cbn [obind];
    [ | reflexivity].
  destruct (add_one_day_ok cur next Hcur Hnext) as [Hvalid Hord].
  rewrite (IH fuel2 next Hvalid) by lia. reflexivity.
Qed.

(** A loop that starts after the end date does nothing. *)
Lemma events_loop_past (fuel : nat) (cur : date) :
  date_leb cur end_date = false ->
  events_loop fuel schedule end_date cur = Ok [].
Proof.
  intros H. destruct fuel; cbn [events_loop]; rewrite H; reflexivity.
Qed.

End RangeFacts.

(** The loop up to [end_date] is the loop up to a date [mid] of the
    range followed by the loop from the day after [mid]. *)
Lemma events_loop_split (schedule : template) (mid next end_date : date)
  (fuel : nat) (cur : date) :
  valid_date mid = true -> valid_date end_date = true ->
  valid_date cur = true ->
  toordinal cur <= toordinal mid <= toordinal end_date ->
  add_one_day mid = Ok next ->
  (Z.to_nat (toordinal mid - toordinal cur + 1) <= fuel)%nat ->
  events_loop (loop_fuel cur end_date) schedule end_date cur
  = let? before := events_loop fuel schedule mid cur in
    let? after := events_loop (loop_fuel next end_date) schedule end_date
                    next in
    Ok (before ++ after).
Proof.
  intros Hmid Hend. revert cur. induction fuel as [ | fuel IH];
    intros cur Hcur Hr Hnext Hfuel; [lia | ].
  destruct (add_one_day_ok mid next Hmid Hnext) as [Hnv Hno].
  unfold loop_fuel at 1.
  destruct (Z.to_nat (toordinal end_date - toordinal cur + 1))
    as [ | k] eqn:Hk; [lia | ].
  cbn [events_loop].
  rewrite (date_leb_toordinal cur end_date Hcur Hend).
  rewrite (date_leb_toordinal cur mid Hcur Hmid).
  replace (toordinal cur <=? toordinal end_date) with true
    by (symmetry; apply Z.leb_le; lia).
  replace (toordinal cur <=? toordinal mid) with true
    by (symmetry; apply Z.leb_le; lia).
  destruct (day_events schedule cur) as [evs | e]; cbn [obind];
    [ | reflexivity].
  destruct (add_one_day cur) as [cur' | e] eqn:Hcur'; cbn [obind].
  2:{ destruct (add_one_day_raises cur e Hcur Hcur') as [_ ->].
      assert (Heq : mid = mkdate 9999 12 31).
      { apply date_last; [exact Hmid | ].
        rewrite date_leb_toordinal by auto. apply Z.leb_le. lia. }
      subst mid. discriminate. }
  destruct (add_one_day_ok cur cur' Hcur Hcur') as [Hv' Ho'].
  destruct (Z.eq_dec (toordinal cur) (toordinal mid)) as [Heq | Hneq].
  - apply toordinal_inj in Heq; auto. subst mid.
    assert (cur' = next) by congruence. subst cur'.
    rewrite (events_loop_past schedule cur fuel next).
    2:{ rewrite date_leb_toordinal by auto. apply Z.leb_gt. lia. }
    cbn [obind app].
    rewrite (events_loop_fuel schedule end_date Hend k
               (loop_fuel next end_date) next Hnv)
      by (unfold loop_fuel; lia).
    destruct (events_loop (loop_fuel next end_date) schedule end_date next);
      cbn [obind]; [rewrite app_nil_r | ]; reflexivity.
  - rewrite (events_loop_fuel schedule end_date Hend k
               (loop_fuel cur' end_date) cur' Hv')
      by (unfold loop_fuel; lia).
    rewrite (IH cur' Hv') by (auto; lia).
    destruct (events_loop fuel schedule mid cur') as [before | e];
      cbn [obind]; [ | reflexivity].
    destruct (events_loop (loop_fuel next end_date) schedule end_date next)
      as [after | e]; cbn [obind]; [ | reflexivity].
    rewrite app_assoc. reflexivity.
Qed.

Lemma date_ltb_not_leb (a b : date) :
  date_ltb b a = true -> date_leb a b = false.
Proof.
  destruct a as [y m d], b as [y' m' d'].
  unfold date_leb, date_ltb, date_eqb. cbn [year month day].
  intros H. apply not_true_is_false. revert H. bool_to_prop. lia.
Qed.

Lemma week_number_range (d : date) :
  valid_date d = true -> 1 <= get_week_number_in_month d <= 5.
Proof.
  intros Hvalid. apply valid_date_iff in Hvalid.
  destruct Hvalid as (_ & Hm & Hd).
  pose proof (days_in_month_bounds (year d) (month d) Hm) as Hdim.
  unfold get_week_number_in_month, days_between, replace_day1, toordinal,
    ymd2ord. cbn [year month day].
  Z.to_euclidean_division_equations; lia.
Qed.

(** The entry of a valid date is an entry of the five-by-five grid. *)
Lemma template_entry_lookup (schedule : template) (d : date) :
  weekday d < 5 ->
  exists day, In day (keys WEEKDAY_MAP)
    /\ template_entry schedule d
       = lookup schedule (get_week_number_in_month d) day.
Proof.
  intros Hw. pose proof (weekday_range d) as Hr.
  destruct (day_name_of_weekday (weekday d)) as (name & Hname & Hin); [lia | ].
  exists name. split; [exact Hin | ].
  unfold template_entry, lookup. rewrite Hname. reflexivity.
Qed.

(** The windows of the events of a day. *)
Lemma day_events_windows (schedule : template) (d : date)
  (evs : list event) (ev : event) :
  day_events schedule d = Ok evs -> In ev evs ->
  ev = full_day_event d (ev_location ev)
  \/ ev = morning_event d (ev_location ev)
  \/ ev = afternoon_event d (ev_location ev).
Proof.
  intros Hday Hin.
  destruct (Z.lt_ge_cases (weekday d) 5) as [Hw | Hw].
  2:{ rewrite day_events_weekend in Hday by exact Hw.
      injection Hday as <-. destruct Hin. }
  rewrite day_events_weekday in Hday by exact Hw.
  destruct (template_entry schedule d) as [sessions | ].
  2:{ injection Hday as <-. destruct Hin. }
  destruct (option_eqb (get "AM" sessions) (get "PM" sessions)).
  - destruct (getitem "AM" sessions) as [location | e]; [ | discriminate].
    injection Hday as <-. destruct Hin as [<- | []]. left. reflexivity.
  - injection Hday as <-. apply in_map_iff in Hin.
    destruct Hin as ([session location] & <- & _).
    unfold session_event, session_window. cbn [fst snd].
    destruct (String.eqb session "AM"); [right; left | right; right];
      reflexivity.
Qed.

Section FailureFacts.
Variable schedule : template.
Variable end_date : date.
Hypothesis end_valid : valid_date end_date = true.

(** A date of the range on which the body fails makes the loop fail
    with [KeyError]. *)
Lemma events_loop_hits (fuel : nat) (cur d : date) :
  valid_date cur = true -> valid_date d = true ->
  toordinal cur <= toordinal d <= toordinal end_date ->
  (Z.to_nat (toordinal end_date - toordinal cur + 1) <= fuel)%nat ->
  day_events schedule d = Raise KeyError ->
  events_loop fuel schedule end_date cur = Raise KeyError.
Proof.
  revert cur. induction fuel as [ | fuel IH];
    intros cur Hcur Hd Hr Hfuel Hraise; [lia | ].
  cbn [events_loop].
  rewrite (date_leb_toordinal cur end_date Hcur end_valid).
  replace (toordinal cur <=? toordinal end_date) with true
    by (symmetry; apply Z.leb_le; lia).
  destruct (day_events schedule cur) as [evs | e] eqn:Hday; cbn [obind].
  2:{ apply day_events_raises in Hday. destruct Hday as [-> _].
      reflexivity. }
  assert (Hneq : toordinal cur <> toordinal d).
  { intros Heq. apply toordinal_inj in Heq; auto. congruence. }
  destruct (add_one_day cur) as [next | e] eqn:Hnext; cbn [obind].
  2:{ destruct (add_one_day_raises cur e Hcur Hnext) as [_ ->].
      assert (Heq : d = mkdate 9999 12 31).
      { apply date_last; [exact Hd | ].
        rewrite date_leb_toordinal by auto. apply Z.leb_le. lia. }
      subst d. contradiction. }
  destruct (add_one_day_ok cur next Hcur Hnext) as [Hvalid Hord].
  rewrite (IH next Hvalid Hd) by (auto; lia). reflexivity.
Qed.

End FailureFacts.

(** A loop up to 9999-12-31 never returns. *)
Lemma events_loop_last_day (schedule : template) (fuel : nat) (cur : date) :
  valid_date cur = true ->
  exists e, events_loop fuel schedule (mkdate 9999 12 31) cur = Raise e.
Proof.
  revert cur. induction fuel as [ | fuel IH]; intros cur Hcur;
    cbn [events_loop].
  - destruct (date_leb cur (mkdate 9999 12 31)) eqn:Hle; [eauto | ].
    exfalso. rewrite date_leb_toordinal in Hle by auto.
    apply Z.leb_gt in Hle.
    destruct (date_trichotomy cur (mkdate 9999 12 31)) as [H | [H | H]].
    + apply date_ltb_toordinal in H; auto. lia.
    + subst cur. lia.
    + assert (Hl : date_leb (mkdate 9999 12 31) cur = true)
        by (unfold date_leb; rewrite H; reflexivity).
      apply date_last in Hl; auto. subst cur. lia.
  - destruct (date_leb cur (mkdate 9999 12 31)) eqn:Hle.
    2:{ exfalso. rewrite date_leb_toordinal in Hle by auto.
        apply Z.leb_gt in Hle.
        destruct (date_trichotomy cur (mkdate 9999 12 31)) as [H | [H | H]].
        + apply date_ltb_toordinal in H; auto. lia.
        + subst cur. lia.
        + assert (Hl : date_leb (mkdate 9999 12 31) cur = true)
            by (unfold date_leb; rewrite H; reflexivity).
          apply date_last in Hl; auto. subst cur. lia. }
    destruct (day_events schedule cur) as [evs | e]; cbn [obind]; [ | eauto].
    destruct (add_one_day cur) as [next | e] eqn:Hnext; cbn [obind];
      [ | eauto].
    destruct (add_one_day_ok cur next Hcur Hnext) as [Hvalid _].
    destruct (IH next Hvalid) as (e & ->). cbn [obind]. eauto.
Qed.

(** ** How the loop fails *)

(** X1: the loop body raises exactly when the date is a weekday whose
    entry holds neither an "AM" nor a "PM" key, and then it raises
    [KeyError]; no other exception leaves it. *)
Theorem visit_day_raises_iff (clock : nat -> datetime) (schedule : template)
  (d : date) (events : list string) (n : nat) (e : exn) :
  visit_day clock schedule d events n = Raise e
  <-> e = KeyError /\ lacks_sessions schedule d.
Proof.
  rewrite visit_day_events. unfold lacks_sessions.
  rewrite <- day_events_raises.
  destruct (day_events schedule d); split; congruence.
Qed.

(** X2: a run over valid dates raises [KeyError] exactly when some date
    of the range is a weekday whose entry holds neither key. *)
Theorem generate_events_KeyError_iff (clock : nat -> datetime)
  (start_date end_date : date) (schedule : template) (n : nat) :
  valid_date start_date = true -> valid_date end_date = true ->
  (generate_events clock start_date end_date schedule n = Raise KeyError
   <-> exists d, within start_date end_date d /\ lacks_sessions schedule d).
Proof.
  intros Hs He. rewrite generate_events_events.
  unfold planned_events, within, lacks_sessions. split.
  - destruct (events_loop (loop_fuel start_date end_date) schedule end_date
                start_date) as [evs | x] eqn:Hp; [discriminate | ].
    intros [= ->]. unfold loop_fuel in Hp.
    apply events_loop_raises in Hp; auto.
    destruct Hp as [(_ & d & Hd & Hr & Hraise) | (Hx & _)];
      [ | discriminate].
    exists d. apply day_events_raises in Hraise.
    destruct Hraise as (_ & Hw & Hentry).
    rewrite !date_leb_toordinal by auto. rewrite !Z.leb_le.
    repeat split; auto; lia.
  - intros (d & (Hd & Hsd & Hde) & Hlack).
    rewrite date_leb_toordinal in Hsd, Hde by auto.
    apply Z.leb_le in Hsd, Hde.
    assert (Hraise : day_events schedule d = Raise KeyError)
      by (apply day_events_raises; split; [reflexivity | exact Hlack]).
    rewrite (events_loop_hits schedule end_date He
               (loop_fuel start_date end_date) start_date d Hs Hd
               (conj Hsd Hde) ltac:(unfold loop_fuel; lia) Hraise).
    reflexivity.
Qed.

Lemma generate_events_KeyError_iff_witness :
  valid_date mon_oct_6 = true /\ valid_date tue_oct_7 = true
  /\ generate_events ticking mon_oct_6 tue_oct_7 empty_monday 0%nat
     = Raise KeyError.
Proof.
  split; [reflexivity | ]. split; [reflexivity | ].
  apply (generate_events_KeyError_iff ticking mon_oct_6 tue_oct_7
           empty_monday 0%nat eq_refl eq_refl).
  exists mon_oct_6. split.
  - repeat split; reflexivity.
  - split; [reflexivity | ]. exists []. repeat split; reflexivity.
Defined.

(** X3: a run over valid dates raises [OverflowError] exactly when the
    range is not empty, ends on 9999-12-31, the last day a date can
    hold, and no date of it makes the body fail: the increment after
    the last day has no result. *)
Theorem generate_events_OverflowError_iff (clock : nat -> datetime)
  (start_date end_date : date) (schedule : template) (n : nat) :
  valid_date start_date = true -> valid_date end_date = true ->
  (generate_events clock start_date end_date schedule n = Raise OverflowError
   <-> end_date = mkdate 9999 12 31
       /\ date_leb start_date end_date = true
       /\ forall d, within start_date end_date d ->
            ~ lacks_sessions schedule d).
Proof.
  intros Hs He. split.
  - intros Hrun. split; [ | split].
    + rewrite generate_events_events in Hrun. unfold planned_events in Hrun.
      destruct (events_loop (loop_fuel start_date end_date) schedule end_date
                  start_date) as [evs | x] eqn:Hp; [discriminate | ].
      injection Hrun as ->. unfold loop_fuel in Hp.
      apply events_loop_raises in Hp; auto.
      destruct Hp as [(Hx & _) | (_ & Hend & _)]; [discriminate | exact Hend].
    + rewrite generate_events_events in Hrun. unfold planned_events in Hrun.
      destruct (events_loop (loop_fuel start_date end_date) schedule end_date
                  start_date) as [evs | x] eqn:Hp; [discriminate | ].
      injection Hrun as ->. unfold loop_fuel in Hp.
      apply events_loop_raises in Hp; auto.
      destruct Hp as [(Hx & _) | (_ & _ & Hr)]; [discriminate | ].
      rewrite date_leb_toordinal by auto. apply Z.leb_le. exact Hr.
    + intros d (Hd & Hsd & Hde) Hlack.
      rewrite date_leb_toordinal in Hsd, Hde by auto.
      apply Z.leb_le in Hsd, Hde.
      assert (Hraise : day_events schedule d = Raise KeyError)
        by (apply day_events_raises; split; [reflexivity | exact Hlack]).
      rewrite generate_events_events in Hrun. unfold planned_events in Hrun.
      rewrite (events_loop_hits schedule end_date He
                 (loop_fuel start_date end_date) start_date d Hs Hd
                 (conj Hsd Hde) ltac:(unfold loop_fuel; lia) Hraise) in Hrun.
      discriminate.
  - intros (-> & Hle & Hnone). rewrite generate_events_events.
    unfold planned_events.
    destruct (events_loop_last_day schedule
                (loop_fuel start_date (mkdate 9999 12 31)) start_date Hs)
      as (x & Hx).
    rewrite Hx. unfold loop_fuel in Hx.
    apply events_loop_raises in Hx; auto.
    destruct Hx as [(_ & d & Hd & Hr & Hraise) | (-> & _)]; [ | reflexivity].
    exfalso. apply (Hnone d).
    + unfold within. rewrite !date_leb_toordinal by auto.
      rewrite !Z.leb_le. repeat split; auto; lia.
    + apply day_events_raises in Hraise. exact (proj2 Hraise).
Qed.

Lemma generate_events_OverflowError_iff_witness :
  valid_date (mkdate 9999 12 30) = true
  /\ valid_date (mkdate 9999 12 31) = true
  /\ generate_events ticking (mkdate 9999 12 30) (mkdate 9999 12 31) rooms
       0%nat
     = Raise OverflowError.
Proof.
  split; [reflexivity | ]. split; [reflexivity | ].
  apply (generate_events_OverflowError_iff ticking (mkdate 9999 12 30)
           (mkdate 9999 12 31) rooms 0%nat eq_refl eq_refl).
  split; [reflexivity | ]. split; [reflexivity | ].
  intros d (Hd & _) (Hw & sessions & Hentry & Ham & Hpm).
  pose proof (all_entries_entry has_session rooms d sessions eq_refl Hentry)
    as Hs.
  unfold has_session, contains in Hs. rewrite Ham, Hpm in Hs. discriminate.
Defined.

(** ** Ranges *)

(** X4: when the start date lies after the end date, [generate_events]
    returns no line and does not read the clock, and [generate_ics]
    returns the header and the footer alone, for every template. *)
Theorem generate_events_empty_range (clock : nat -> datetime)
  (start_date end_date : date) (schedule : template) (n : nat) :
  date_ltb end_date start_date = true ->
  generate_events clock start_date end_date schedule n = Ok ([], n)
  /\ generate_ics clock start_date end_date schedule n
     = Ok (join newline
             [ "BEGIN:VCALENDAR"; "VERSION:2.0";
               "PRODID:-//Schedule Generator//EN"; "CALSCALE:GREGORIAN";
               "END:VCALENDAR" ], n).
Proof.
  intros Hlt. apply date_ltb_not_leb in Hlt.
  assert (Hev : generate_events clock start_date end_date schedule n
                = Ok ([], n)).
  { unfold generate_events.
    destruct (loop_fuel start_date end_date); cbn [while_loop];
      rewrite Hlt; reflexivity. }
  split; [exact Hev | ].
  unfold generate_ics, generate_ics_lines, bind. rewrite Hev. reflexivity.
Qed.

Lemma generate_events_empty_range_witness :
  date_ltb wed_oct_1 tue_oct_7 = true
  /\ generate_events ticking tue_oct_7 wed_oct_1 empty_monday 0%nat
     = Ok ([], 0%nat).
Proof.
  split; [reflexivity | ].
  apply (generate_events_empty_range ticking tue_oct_7 wed_oct_1
           empty_monday 0%nat eq_refl).
Defined.

(** X5: a run over a range is the run up to any date [mid] of the range
    followed by the run from the day after [mid]: the lines are
    appended, the clock reads continue, and the first exception of the
    two is the exception of the whole. *)
Theorem generate_events_concat (clock : nat -> datetime)
  (start_date mid next end_date : date) (schedule : template) (n : nat) :
  valid_date start_date = true -> valid_date mid = true ->
  valid_date end_date = true ->
  date_leb start_date mid = true -> date_leb mid end_date = true ->
  add_one_day mid = Ok next ->
  generate_events clock start_date end_date schedule n
  = match generate_events clock start_date mid schedule n with
    | Ok (lines1, n1) =>
        match generate_events clock next end_date schedule n1 with
        | Ok (lines2, n2) => Ok (lines1 ++ lines2, n2)
        | Raise e => Raise e
        end
    | Raise e => Raise e
    end.
Proof.
  intros Hs Hm He Hsm Hme Hnext.
  rewrite date_leb_toordinal in Hsm, Hme by auto.
  apply Z.leb_le in Hsm, Hme.
  rewrite !generate_events_events. unfold planned_events.
  rewrite (events_loop_split schedule mid next end_date
             (loop_fuel start_date mid) start_date Hm He Hs
             (conj Hsm Hme) Hnext) by (unfold loop_fuel; lia).
  destruct (events_loop (loop_fuel start_date mid) schedule mid start_date)
    as [before | e]; cbn [obind]; [ | reflexivity].
  rewrite generate_events_events. unfold planned_events.
  destruct (events_loop (loop_fuel next end_date) schedule end_date next)
    as [after | e]; cbn [obind]; [ | reflexivity].
  rewrite event_blocks_app, length_app, Nat.add_assoc. reflexivity.
Qed.

Lemma generate_events_concat_witness :
  add_one_day thu_oct_2 = Ok fri_oct_3
  /\ generate_events ticking wed_oct_1 tue_oct_7 rooms 0%nat
     = match generate_events ticking wed_oct_1 thu_oct_2 rooms 0%nat with
       | Ok (lines1, n1) =>
           match generate_events ticking fri_oct_3 tue_oct_7 rooms n1 with
           | Ok (lines2, n2) => Ok (lines1 ++ lines2, n2)
           | Raise e => Raise e
           end
       | Raise e => Raise e
       end.
Proof.
  split; [reflexivity | ].
  apply (generate_events_concat ticking wed_oct_1 thu_oct_2 fri_oct_3
           tue_oct_7 rooms 0%nat eq_refl eq_refl eq_refl eq_refl eq_refl
           eq_refl).
Defined.

(** X6: every event of a run lies on a weekday of the requested range,
    starts and ends on that day, and has one of the three windows
    08:00-17:00, 08:00-12:00 and 13:00-17:00, whatever the keys of the
    template are; the clock is read once per event. *)
Theorem events_within_range (clock : nat -> datetime)
  (start_date end_date : date) (schedule : template)
  (n : nat) (lines : list string) (n' : nat) :
  valid_date start_date = true -> valid_date end_date = true ->
  generate_events clock start_date end_date schedule n = Ok (lines, n') ->
  exists evs,
    lines = event_blocks clock n evs
    /\ n' = (n + List.length evs)%nat
    /\ List.length lines = (9 * List.length evs)%nat
    /\ forall ev, In ev evs ->
         exists d,
           within start_date end_date d /\ weekday d < 5
           /\ (ev = mkevent (mkdatetime d 8 0 0) (mkdatetime d 17 0 0)
                      (ev_location ev)
               \/ ev = mkevent (mkdatetime d 8 0 0) (mkdatetime d 12 0 0)
                         (ev_location ev)
               \/ ev = mkevent (mkdatetime d 13 0 0) (mkdatetime d 17 0 0)
                         (ev_location ev)).
Proof.
  intros Hs He. rewrite generate_events_events.
  destruct (planned_events start_date end_date schedule) as [evs | e] eqn:Hp;
    [ | discriminate].
  intros [= <- <-]. exists evs. split; [reflexivity | ].
  split; [reflexivity | ]. split; [apply event_blocks_length | ].
  intros ev Hin. unfold planned_events in Hp.
  destruct (events_loop_sound schedule end_date He _ start_date evs ev
              Hs Hp Hin) as (d & evs_d & Hd & Hr & Hday & Hin').
  exists d. split; [ | split].
  - unfold within. rewrite !date_leb_toordinal by auto.
    rewrite !Z.leb_le. repeat split; auto; lia.
  - exact (proj1 (day_events_dates _ _ _ _ Hday Hin')).
  - exact (day_events_windows _ _ _ _ Hday Hin').
Qed.

Lemma events_within_range_witness :
  exists evs,
    event_blocks ticking 0 [full_day_event wed_oct_1 "Lab A"]
    = event_blocks ticking 0 evs
    /\ 1%nat = (0 + List.length evs)%nat
    /\ List.length (event_blocks ticking 0 [full_day_event wed_oct_1 "Lab A"])
       = (9 * List.length evs)%nat
    /\ forall ev, In ev evs ->
         exists d,
           within wed_oct_1 wed_oct_1 d /\ weekday d < 5
           /\ (ev = mkevent (mkdatetime d 8 0 0) (mkdatetime d 17 0 0)
                      (ev_location ev)
               \/ ev = mkevent (mkdatetime d 8 0 0) (mkdatetime d 12 0 0)
                         (ev_location ev)
               \/ ev = mkevent (mkdatetime d 13 0 0) (mkdatetime d 17 0 0)
                         (ev_location ev)).
Proof.
  apply (events_within_range ticking wed_oct_1 wed_oct_1 rooms 0%nat
           (event_blocks ticking 0 [full_day_event wed_oct_1 "Lab A"]) 1%nat
           eq_refl eq_refl eq_refl).
Defined.

(** X7: a run reads the template only at the weeks 1 to 5 and the five
    weekday names: two templates with the same entries there give the
    same result, whatever else they hold. *)
Theorem generate_events_reads_grid_only (clock : nat -> datetime)
  (start_date end_date : date) (schedule1 schedule2 : template) (n : nat) :
  valid_date start_date = true ->
  (forall week day, 1 <= week <= 5 ->
     In day ["Mon"; "Tues"; "Wed"; "Thur"; "Fri"] ->
     lookup schedule1 week day = lookup schedule2 week day) ->
  generate_events clock start_date end_date schedule1 n
  = generate_events clock start_date end_date schedule2 n.
Proof.
  intros Hs Hgrid. rewrite !generate_events_events. unfold planned_events.
  assert (Hloop : forall fuel cur, valid_date cur = true ->
            events_loop fuel schedule1 end_date cur
            = events_loop fuel schedule2 end_date cur).
  { induction fuel as [ | fuel IH]; intros cur Hcur; cbn [events_loop];
      [reflexivity | ].
    destruct (date_leb cur end_date); [ | reflexivity].
    assert (Hday : day_events schedule1 cur = day_events schedule2 cur).
    { destruct (Z.lt_ge_cases (weekday cur) 5) as [Hw | Hw].
      - rewrite !day_events_weekday by exact Hw.
        destruct (template_entry_lookup schedule1 cur Hw) as (day & Hin & H1).
        pose proof (weekday_range cur) as Hr.
        destruct (day_name_of_weekday (weekday cur)) as (name & Hname & Hn);
          [lia | ].
        unfold template_entry. rewrite Hname.
        fold (lookup schedule1 (get_week_number_in_month cur) name).
        fold (lookup schedule2 (get_week_number_in_month cur) name).
        rewrite (Hgrid _ name (week_number_range cur Hcur) Hn). reflexivity.
      - rewrite !day_events_weekend by exact Hw. reflexivity. }
    rewrite Hday.
    destruct (day_events schedule2 cur); cbn [obind]; [ | reflexivity].
    destruct (add_one_day cur) as [next | e] eqn:Hnext; cbn [obind];
      [ | reflexivity].
    rewrite (IH next (proj1 (add_one_day_ok cur next Hcur Hnext))).
    reflexivity. }
  rewrite (Hloop _ start_date Hs). reflexivity.
Qed.

Lemma generate_events_reads_grid_only_witness :
  generate_events ticking wed_oct_1 tue_oct_7 rooms 0%nat
  = generate_events ticking wed_oct_1 tue_oct_7
      (rooms ++ [(6, [("Mon", [])]); (1, [("Mon", [])])]) 0%nat.
Proof.
  apply (generate_events_reads_grid_only ticking wed_oct_1 tue_oct_7 rooms
           (rooms ++ [(6, [("Mon", [])]); (1, [("Mon", [])])]) 0%nat eq_refl).
  intros week day Hweek Hday.
  assert (Hw : week = 1 \/ week = 2 \/ week = 3 \/ week = 4 \/ week = 5)
    by lia.
  destruct Hw as [-> | [-> | [-> | [-> | ->]]]]; reflexivity.
Defined.

(** ** Weeks of a month *)

(** X8: within one month a week number and a weekday determine the date:
    two dates of the same month with the same week of month and the same
    weekday are equal, so a cell of the template applies to at most one
    date per month. *)
Theorem week_and_weekday_determine_date (d1 d2 : date) :
  valid_date d1 = true -> valid_date d2 = true ->
  year d1 = year d2 -> month d1 = month d2 ->
  get_week_number_in_month d1 = get_week_number_in_month d2 ->
  weekday d1 = weekday d2 ->
  d1 = d2.
Proof.
  destruct d1 as [y m a], d2 as [y' m' b]. rewrite !valid_date_iff.
  cbn [year month day]. intros (_ & _ & Ha) (_ & _ & Hb) <- <-.
  unfold get_week_number_in_month, days_between, replace_day1, weekday,
    toordinal, ymd2ord. cbn [year month day].
  intros Hweek Hday. f_equal.
  remember (days_before_year y + days_before_month y m) as base.
  Z.to_euclidean_division_equations; lia.
Qed.

Lemma week_and_weekday_determine_date_witness :
  valid_date wed_oct_1 = true /\ wed_oct_1 = mkdate 2025 10 1.
Proof.
  split; [reflexivity | ].
  apply (week_and_weekday_determine_date wed_oct_1 (mkdate 2025 10 1)
           eq_refl eq_refl eq_refl eq_refl eq_refl eq_refl).
Defined.

(** X9: in every month each of the weeks 1 to 4 contains every weekday:
    for a week number from 1 to 4 and a weekday number from 0 to 6 there
    is a date of the month with that week of month and that weekday.
    (Week 5 has the days 29 to 31 only.) *)
Theorem weeks_one_to_four_are_full (y m week k : Z) :
  1 <= y <= 9999 -> 1 <= m <= 12 -> 1 <= week <= 4 -> 0 <= k < 7 ->
  exists d,
    valid_date d = true /\ year d = y /\ month d = m
    /\ get_week_number_in_month d = week /\ weekday d = k.
Proof.
  intros Hy Hm Hweek Hk.
  pose proof (days_in_month_bounds y m Hm) as Hdim.
  set (base := days_before_year y + days_before_month y m).
  set (first := 7 * (week - 1) + 1).
  exists (mkdate y m (first + (k - (base + first + 6)) mod 7)).
  rewrite valid_date_iff.
  unfold get_week_number_in_month, days_between, replace_day1, weekday,
    toordinal, ymd2ord. cbn [year month day]. fold base.
  pose proof (Z.mod_pos_bound (k - (base + first + 6)) 7 ltac:(lia)) as Hr.
  remember ((k - (base + first + 6)) mod 7) as r eqn:Er.
  repeat split; try lia; unfold first in *.
  - Z.to_euclidean_division_equations; lia.
  - Z.to_euclidean_division_equations; lia.
Qed.

Lemma weeks_one_to_four_are_full_witness :
  exists d,
    valid_date d = true /\ year d = 2025 /\ month d = 10
    /\ get_week_number_in_month d = 1 /\ weekday d = 0.
Proof.
  apply (weeks_one_to_four_are_full 2025 10 1 0); lia.
Defined.

(** ** Identifiers *)

Lemma filter_str_app (p : ascii -> bool) (a b : string) :
  filter_str p (a ++ b) = (filter_str p a ++ filter_str p b)%string.
Proof.
  induction a as [ | c a IH]; [reflexivity | ]. cbn [append filter_str].
  destruct (p c); cbn [append]; rewrite IH; reflexivity.
Qed.

Lemma filter_str_all (p : ascii -> bool) (s : string) :
  forall_str p s = true -> filter_str p s = s.
Proof.
  induction s as [ | c s IH]; [reflexivity | ]. cbn [forall_str filter_str].
  rewrite andb_true_iff. intros [-> Hs]. rewrite (IH Hs). reflexivity.
Qed.

Lemma forall_str_filter (p : ascii -> bool) (s : string) :
  forall_str p (filter_str p s) = true.
Proof.
  induction s as [ | c s IH]; [reflexivity | ]. cbn [filter_str].
  destruct (p c) eqn:Hc; [ | exact IH]. cbn [forall_str].
  rewrite Hc, IH. reflexivity.
Qed.

Lemma filter_str_length (p : ascii -> bool) (s : string) :
  (String.length (filter_str p s) <= String.length s)%nat.
Proof.
  induction s as [ | c s IH]; [cbn; lia | ]. cbn [filter_str].
  destruct (p c); cbn [String.length]; lia.
Qed.

Lemma digit_cases (n : Z) :
  exists k, 0 <= k < 10 /\ n mod 10 = k
    /\ digit n = ascii_of_N (Z.to_N (48 + k)).
Proof.
  exists (n mod 10). pose proof (Z.mod_pos_bound n 10 ltac:(lia)).
  repeat split; lia.
Qed.

Lemma digit_uid_char (n : Z) : uid_char (digit n) = true.
Proof.
  destruct (digit_cases n) as (k & Hk & _ & ->).
  assert (H : k = 0 \/ k = 1 \/ k = 2 \/ k = 3 \/ k = 4 \/ k = 5 \/ k = 6
              \/ k = 7 \/ k = 8 \/ k = 9) by lia.
  repeat (destruct H as [-> | H]; [reflexivity | ]). subst k. reflexivity.
Qed.

Lemma digit_inj (a b : Z) : digit a = digit b -> a mod 10 = b mod 10.
Proof.
  destruct (digit_cases a) as (k & Hk & <- & ->).
  destruct (digit_cases b) as (j & Hj & <- & ->).
  intros H. apply (f_equal N_of_ascii) in H.
  rewrite !N_ascii_embedding in H by lia. lia.
Qed.

Lemma strftime_uid_chars (dt : datetime) :
  forall_str uid_char (strftime dt) = true.
Proof.
  unfold strftime, pad4, pad2. cbn [append forall_str].
  rewrite !digit_uid_char. reflexivity.
Qed.

Lemma strftime_length (dt : datetime) : String.length (strftime dt) = 15%nat.
Proof. reflexivity. Qed.

(** Two timestamps with fields in range are written alike only when
    they are equal. *)
Lemma strftime_inj (a b : datetime) :
  0 <= year (dt_date a) <= 9999 -> 0 <= year (dt_date b) <= 9999 ->
  0 <= month (dt_date a) < 100 -> 0 <= month (dt_date b) < 100 ->
  0 <= day (dt_date a) < 100 -> 0 <= day (dt_date b) < 100 ->
  0 <= hour a < 100 -> 0 <= hour b < 100 ->
  0 <= minute a < 100 -> 0 <= minute b < 100 ->
  0 <= second a < 100 -> 0 <= second b < 100 ->
  strftime a = strftime b -> a = b.
Proof.
  destruct a as [[y m d] h mi s], b as [[y' m' d'] h' mi' s'].
  cbn [dt_date year month day hour minute second].
  intros Hy Hy' Hm Hm' Hd Hd' Hh Hh' Hmi Hmi' Hs Hs'.
  unfold strftime, pad4, pad2.
  cbn [append dt_date year month day hour minute second].
  intros H. injection H as Hy1 Hy2 Hy3 Hy4 Hm1 Hm2 Hd1 Hd2 Hh1 Hh2
                            Hmi1 Hmi2 Hs1 Hs2.
  apply digit_inj in Hy1, Hy2, Hy3, Hy4, Hm1, Hm2, Hd1, Hd2, Hh1, Hh2,
    Hmi1, Hmi2, Hs1, Hs2.
  assert (y = y') by (Z.to_euclidean_division_equations; lia).
  assert (m = m') by (Z.to_euclidean_division_equations; lia).
  assert (d = d') by (Z.to_euclidean_division_equations; lia).
  assert (h = h') by (Z.to_euclidean_division_equations; lia).
  assert (mi = mi') by (Z.to_euclidean_division_equations; lia).
  assert (s = s') by (Z.to_euclidean_division_equations; lia).
  congruence.
Qed.

Lemma append_same_length (a b x y : string) :
  String.length a = String.length b ->
  (a ++ x)%string = (b ++ y)%string -> a = b /\ x = y.
Proof.
  revert b. induction a as [ | c a IH]; intros [ | c' b]; cbn [String.length];
    try discriminate.
  - intros _ H. split; [reflexivity | exact H].
  - intros [= Hlen]. cbn [append]. intros [= -> H].
    destruct (IH b Hlen H) as [-> ->]. split; reflexivity.
Qed.

Lemma length_append (a b : string) :
  String.length (a ++ b) = (String.length a + String.length b)%nat.
Proof.
  induction a as [ | c a IH]; [reflexivity | ]. cbn [append String.length].
  rewrite IH. reflexivity.
Qed.

Lemma append_cancel_r (a b c : string) :
  (a ++ c)%string = (b ++ c)%string -> a = b.
Proof.
  intros H. apply (append_same_length a b c c); [ | exact H].
  apply (f_equal String.length) in H. rewrite !length_append in H. lia.
Qed.

(** The identifier of an event: the timestamp survives whole, the
    label is filtered and the "@" of the suffix is dropped. *)
Lemma sanitize_make_uid (start : datetime) (location : string) :
  sanitize_uid (make_uid start location)
  = (strftime start ++ "-" ++ sanitize_uid location ++ "schedule")%string.
Proof.
  rewrite !sanitize_uid_filter. unfold make_uid.
  rewrite !filter_str_app.
  rewrite (filter_str_all uid_char (strftime start) (strftime_uid_chars start)).
  reflexivity.
Qed.

(** X10: [sanitize_uid] returns text made of letters, digits, hyphens
    and underscores only, never longer than its argument; it leaves such
    text as it is, and applying it twice is applying it once. *)
Theorem sanitize_uid_idempotent (text : string) :
  forall_str uid_char (sanitize_uid text) = true
  /\ (String.length (sanitize_uid text) <= String.length text)%nat
  /\ sanitize_uid (sanitize_uid text) = sanitize_uid text
  /\ (forall_str uid_char text = true -> sanitize_uid text = text).
Proof.
  rewrite !sanitize_uid_filter.
  split; [apply forall_str_filter | ].
  split; [apply filter_str_length | ].
  split.
  - apply filter_str_all, forall_str_filter.
  - apply filter_str_all.
Qed.

(** X11: the identifier written for an event is its start timestamp, a
    hyphen, the sanitized label and the word "schedule": the timestamp
    is kept whole and the "@" of the suffix is removed.  Hence two
    events get the same identifier exactly when their start timestamps
    are written alike and their labels sanitize to the same text, as do
    "Room A" and "RoomA". *)
Theorem uid_structure (start1 start2 : datetime) (label1 label2 : string) :
  sanitize_uid (make_uid start1 label1)
  = (strftime start1 ++ "-" ++ sanitize_uid label1 ++ "schedule")%string
  /\ (sanitize_uid (make_uid start1 label1)
      = sanitize_uid (make_uid start2 label2)
      <-> strftime start1 = strftime start2
          /\ sanitize_uid label1 = sanitize_uid label2).
Proof.
  split; [apply sanitize_make_uid | ].
  rewrite !sanitize_make_uid. split.
  - intros H.
    apply append_same_length in H; [ | rewrite !strftime_length; reflexivity].
    destruct H as [Hs H]. split; [exact Hs | ].
    cbn [append] in H. injection H as H.
    apply append_cancel_r in H. exact H.
  - intros [-> ->]. reflexivity.
Qed.

Lemma NoDup_map_transfer {A B C : Type} (f : A -> B) (g : A -> C)
  (l : list A) :
  (forall a b, In a l -> In b l -> g a = g b -> f a = f b) ->
  NoDup (map f l) -> NoDup (map g l).
Proof.
  induction l as [ | x l IH]; intros Hfg Hnodup; [constructor | ].
  cbn [map] in *. apply NoDup_cons_iff in Hnodup.
  destruct Hnodup as [Hnotin Hnodup]. constructor.
  - intros Hin. apply in_map_iff in Hin. destruct Hin as (y & Hy & Hin).
    apply Hnotin. apply in_map_iff. exists y. split; [ | exact Hin].
    apply Hfg; [right; exact Hin | left; reflexivity | exact Hy].
  - apply IH; [ | exact Hnodup].
    intros a b Ha Hb. apply Hfg; right; assumption.
Qed.

(** The events of a day with a well-formed entry start at different
    times. *)
Lemma day_events_starts_nodup (schedule : template) (d : date)
  (evs : list event) :
  all_entries session_keys_ok schedule = true ->
  day_events schedule d = Ok evs -> NoDup (map ev_start evs).
Proof.
  intros Hkeys Hday.
  destruct (Z.lt_ge_cases (weekday d) 5) as [Hw | Hw].
  2:{ rewrite day_events_weekend in Hday by exact Hw.
      injection Hday as <-. constructor. }
  rewrite day_events_weekday in Hday by exact Hw.
  destruct (template_entry schedule d) as [sessions | ] eqn:Hentry.
  2:{ injection Hday as <-. constructor. }
  pose proof (all_entries_entry _ _ _ _ Hkeys Hentry) as Hk.
  destruct (session_keys_cases sessions Hk)
    as [-> | [(a & ->) | [(p & ->) | [(a & p & ->) | (a & p & ->)]]]];
    [ discriminate | | | | ];
    cbn in Hday; try destruct (String.eqb a p); try destruct (String.eqb p a);
    injection Hday as <-; cbn;
    repeat (constructor; [cbn; intuition discriminate | ]); constructor.
Qed.

Lemma events_loop_starts_nodup (schedule : template) (end_date : date)
  (fuel : nat) (cur : date) (evs : list event) :
  valid_date end_date = true ->
  all_entries session_keys_ok schedule = true ->
  valid_date cur = true ->
  events_loop fuel schedule end_date cur = Ok evs ->
  NoDup (map ev_start evs).
Proof.
  intros Hend Hkeys.
  revert cur evs. induction fuel as [ | fuel IH]; intros cur evs Hcur;
    cbn [events_loop]; destruct (date_leb cur end_date);
    try discriminate; try (intros [= <-]; constructor).
  destruct (day_events schedule cur) as [evs_d | e] eqn:Hday;
    cbn [obind]; [ | discriminate].
  destruct (add_one_day cur) as [next | e] eqn:Hnext;
    cbn [obind]; [ | discriminate].
  destruct (add_one_day_ok cur next Hcur Hnext) as [Hvalid Hord].
  destruct (events_loop fuel schedule end_date next) as [rest | e] eqn:Hrest;
    cbn [obind]; [ | discriminate].
  intros [= <-]. rewrite map_app. apply NoDup_app.
  - apply (day_events_starts_nodup schedule cur evs_d Hkeys Hday).
  - apply (IH next rest Hvalid Hrest).
  - intros x Hx Hx'. apply in_map_iff in Hx, Hx'.
    destruct Hx as (a & <- & Ha). destruct Hx' as (b & Hab & Hb).
    destruct (day_events_dates _ _ _ _ Hday Ha) as (_ & Hda & _).
    destruct (events_loop_sound schedule end_date Hend _ _ _ _
                Hvalid Hrest Hb) as (d' & evs' & Hd' & Hr' & Hday' & Hin').
    destruct (day_events_dates _ _ _ _ Hday' Hin') as (_ & Hdb & _).
    rewrite Hab, Hda in Hdb. rewrite <- Hdb in Hr'. lia.
Qed.

(** X12: when every entry of the template has its keys among "AM" and
    "PM", the identifiers of the events of a run are pairwise distinct:
    no two blocks of one document carry the same UID. *)
Theorem uids_distinct (clock : nat -> datetime)
  (start_date end_date : date) (schedule : template)
  (n : nat) (lines : list string) (n' : nat) :
  valid_date start_date = true -> valid_date end_date = true ->
  all_entries session_keys_ok schedule = true ->
  generate_events clock start_date end_date schedule n = Ok (lines, n') ->
  exists evs,
    lines = event_blocks clock n evs
    /\ (forall k ev, nth_error evs k = Some ev ->
          nth_error lines (9 * k + 1) = Some ("UID:" ++ event_uid ev)%string)
    /\ NoDup (map event_uid evs).
Proof.
  intros Hs He Hkeys. rewrite generate_events_events.
  destruct (planned_events start_date end_date schedule) as [evs | e] eqn:Hp;
    [ | discriminate].
  intros [= <- <-]. exists evs. split; [reflexivity | ].
  unfold planned_events in Hp. split.
  - intros k ev Hk.
    rewrite (nth_error_event_blocks clock evs n k 1 ev Hk) by lia.
    reflexivity.
  - apply (NoDup_map_transfer ev_start event_uid).
    2:{ apply (events_loop_starts_nodup schedule end_date _ start_date evs
                 He Hkeys Hs Hp). }
    assert (Hfields : forall ev, In ev evs ->
              0 <= year (dt_date (ev_start ev)) <= 9999
              /\ 0 <= month (dt_date (ev_start ev)) < 100
              /\ 0 <= day (dt_date (ev_start ev)) < 100
              /\ 0 <= hour (ev_start ev) < 100
              /\ 0 <= minute (ev_start ev) < 100
              /\ 0 <= second (ev_start ev) < 100).
    { intros ev Hin.
      destruct (events_loop_sound schedule end_date He _ start_date evs ev
                  Hs Hp Hin) as (d & evs_d & Hd & _ & Hday & Hin').
      apply valid_date_iff in Hd. destruct Hd as (Hy & Hm & Hdd).
      pose proof (days_in_month_bounds (year d) (month d) Hm) as Hdim.
      destruct (day_events_windows _ _ _ _ Hday Hin') as [-> | [-> | ->]];
        cbn; lia. }
    intros a b Ha Hb Huid. unfold event_uid in Huid.
    rewrite !sanitize_make_uid in Huid.
    apply append_same_length in Huid;
      [ | rewrite !strftime_length; reflexivity].
    destruct (Hfields a Ha) as (? & ? & ? & ? & ? & ?).
    destruct (Hfields b Hb) as (? & ? & ? & ? & ? & ?).
    apply strftime_inj; tauto.
Qed.

Lemma uids_distinct_witness :
  exists evs,
    event_blocks ticking 0
      [ full_day_event wed_oct_1 "Lab A"; morning_event thu_oct_2 "RoomA";
        afternoon_event thu_oct_2 "RoomB"; morning_event fri_oct_3 "Clinic" ]
    = event_blocks ticking 0 evs
    /\ (forall k ev, nth_error evs k = Some ev ->
          nth_error
            (event_blocks ticking 0
               [ full_day_event wed_oct_1 "Lab A";
                 morning_event thu_oct_2 "RoomA";
                 afternoon_event thu_oct_2 "RoomB";
                 morning_event fri_oct_3 "Clinic" ]) (9 * k + 1)
          = Some ("UID:" ++ event_uid ev)%string)
    /\ NoDup (map event_uid evs).
Proof.
  apply (uids_distinct ticking wed_oct_1 tue_oct_7 rooms 0%nat _ 4%nat
           eq_refl eq_refl eq_refl eq_refl).
Defined.

(** ** More on the template normalizer *)

Lemma for_each_app {A B : Type} (body : A -> B -> outcome A)
  (l1 l2 : list B) (a : A) :
  for_each body (l1 ++ l2) a
  = let? a' := for_each body l1 a in for_each body l2 a'.
Proof.
  revert a. induction l1 as [ | x l1 IH]; intros a; [reflexivity | ].
  cbn [app for_each]. destruct (body a x); cbn [obind]; [apply IH | reflexivity].
Qed.

Lemma row_getitem_ok (r : row) (day cell : string) :
  row_getitem r day = Ok cell -> In day (keys WEEKDAY_MAP).
Proof.
  unfold row_getitem. cbn.
  repeat match goal with
         | |- context [String.eqb day ?x] =>
             destruct (String.eqb_spec day x); [subst; tauto | ]
         end.
  discriminate.
Qed.

Section DictUnique.
Context {K V : Type} `{Key K}.

Lemma unique_keys_setitem (k : K) (v : V) (d : dict K V) :
  unique_keys d = true -> unique_keys (setitem k v d) = true.
Proof.
  induction d as [ | [k0 v0] d IH]; [reflexivity | ].
  cbn [unique_keys setitem]. rewrite andb_true_iff, negb_true_iff.
  intros [Hnot Hd].
  destruct (key_eqb_spec k k0) as [-> | Hneq]; cbn [unique_keys].
  - rewrite Hnot, Hd. reflexivity.
  - rewrite contains_setitem, Hnot, (IH Hd).
    rewrite key_eqb_neq by congruence. reflexivity.
Qed.

Lemma In_get (k : K) (v : V) (d : dict K V) :
  unique_keys d = true -> In (k, v) d -> get k d = Some v.
Proof.
  induction d as [ | [k0 v0] d IH]; [intros _ [] | ].
  cbn [unique_keys get]. rewrite andb_true_iff, negb_true_iff.
  intros [Hnot Hd] [[= -> ->] | Hin].
  - rewrite key_eqb_refl. reflexivity.
  - destruct (key_eqb_spec k k0) as [-> | _]; [ | apply (IH Hd Hin)].
    apply IH in Hin; [ | exact Hd]. unfold contains in Hnot.
    rewrite Hin in Hnot. discriminate.
Qed.

End DictUnique.

Section NormalizerMore.
Variable upper : string -> string.
Variable int_of_text : string -> option Z.

Lemma add_row_ok_week (schedule schedule' : template) (r : row) :
  add_row upper int_of_text schedule r = Ok schedule' ->
  exists w, py_int int_of_text (row_week r) = Ok w.
Proof.
  unfold add_row. destruct (py_int int_of_text (row_week r)) as [w | e];
    [eauto | discriminate].
Qed.

Lemma for_each_add_row_ok_weeks (df : list row) (schedule schedule' : template) :
  for_each (add_row upper int_of_text) df schedule = Ok schedule' ->
  forall r, In r df -> exists w, py_int int_of_text (row_week r) = Ok w.
Proof.
  revert schedule. induction df as [ | r0 df IH]; intros schedule Hrun r Hin;
    [destruct Hin | ].
  cbn [for_each] in Hrun.
  destruct (add_row upper int_of_text schedule r0) as [s1 | e] eqn:Hadd;
    [ | discriminate].
  cbn [obind] in Hrun. destruct Hin as [<- | Hin].
  - apply (add_row_ok_week schedule s1 r0 Hadd).
  - apply (IH s1 Hrun r Hin).
Qed.

(** What a row does to the entries, read off [add_row_spec]. *)
Lemma add_row_entry (schedule schedule' : template) (r : row) (week : Z) :
  py_int int_of_text (row_week r) = Ok week ->
  add_row upper int_of_text schedule r = Ok schedule' ->
  forall w' day',
    lookup schedule' w' day'
    = if (w' =? week) && existsb (String.eqb day') (keys WEEKDAY_MAP)
      then Some (updated_entry r (row_key upper r) day'
                   (lookup schedule week day'))
      else lookup schedule w' day'.
Proof.
  intros Hweek Hadd.
  destruct (add_row_spec upper int_of_text schedule r week Hweek)
    as (s1 & Hrun & _ & Hlook).
  rewrite Hrun in Hadd. injection Hadd as <-. exact Hlook.
Qed.

(** Adding a row keeps a template traced. *)
Lemma add_row_traced (seen : list row) (schedule schedule' : template)
  (r : row) :
  traced upper int_of_text seen schedule ->
  add_row upper int_of_text schedule r = Ok schedule' ->
  traced upper int_of_text (seen ++ [r]) schedule'.
Proof.
  intros (Hfrom & Hkept) Hadd.
  destruct (add_row_ok_week schedule schedule' r Hadd) as (week & Hweek).
  pose proof (add_row_entry schedule schedule' r week Hweek Hadd) as Hlook.
  split.
  - intros w day sessions k v. rewrite Hlook.
    assert (Hold : forall s0, lookup schedule w day = Some s0 ->
              get k s0 = Some v ->
              exists r0 cell,
                In r0 (seen ++ [r])
                /\ py_int int_of_text (row_week r0) = Ok w
                /\ row_key upper r0 = k /\ fills r0 day cell
                /\ strip cell = v).
    { intros s0 Hs0 Hget.
      destruct (Hfrom w day s0 k v Hs0 Hget) as (r0 & cell & Hin & H1).
      exists r0, cell. split; [apply in_or_app; left; exact Hin | exact H1]. }
    destruct (Z.eqb_spec w week) as [-> | Hneq]; cbn [andb];
      [ | apply Hold].
    destruct (existsb (String.eqb day) (keys WEEKDAY_MAP)); [ | apply Hold].
    intros [= <-]. unfold updated_entry.
    assert (Hold' : get k match lookup schedule week day with
                          | Some s => s
                          | None => []
                          end = Some v ->
              exists r0 cell,
                In r0 (seen ++ [r])
                /\ py_int int_of_text (row_week r0) = Ok week
                /\ row_key upper r0 = k /\ fills r0 day cell
                /\ strip cell = v).
    { destruct (lookup schedule week day) as [s0 | ] eqn:Hs0;
        [apply (Hold s0 eq_refl) | discriminate]. }
    destruct (row_getitem r day) as [cell | ] eqn:Hcell; [ | exact Hold'].
    destruct (nonempty (strip cell)) eqn:Hne; [ | exact Hold'].
    rewrite get_setitem. cbn [key_eqb Key_string].
    destruct (String.eqb_spec k (row_key upper r)) as [-> | _];
      [ | exact Hold'].
    intros [= <-]. exists r, cell.
    split; [apply in_or_app; right; left; reflexivity | ].
    repeat split; auto. apply nonempty_true. exact Hne.
  - intros r0 w day cell Hin Hw (Hcell & Hne). rewrite Hlook.
    pose proof (row_getitem_ok r0 day cell Hcell) as Hday.
    apply in_days in Hday.
    apply in_app_or in Hin. destruct Hin as [Hin | [<- | []]].
    + destruct (Hkept r0 w day cell Hin Hw (conj Hcell Hne))
        as (s0 & v & Hs0 & Hv).
      destruct (Z.eqb_spec w week) as [-> | Hneq]; cbn [andb]; [ | eauto].
      rewrite Hday. unfold updated_entry. rewrite Hs0.
      destruct (row_getitem r day) as [cell' | ]; [ | eauto].
      destruct (nonempty (strip cell')); [ | eauto].
      assert (Hex : exists v0,
                get (row_key upper r0)
                  (setitem (row_key upper r) (strip cell') s0) = Some v0).
      { rewrite get_setitem.
        destruct (key_eqb (row_key upper r0) (row_key upper r)); eauto. }
      destruct Hex as (v0 & Hv0). eauto.
    + assert (w = week) by congruence. subst w.
      rewrite Z.eqb_refl, Hday. cbn [andb].
      unfold updated_entry. rewrite Hcell.
      apply nonempty_true in Hne. rewrite Hne.
      do 2 eexists. split; [reflexivity | ].
      rewrite get_setitem, key_eqb_refl. reflexivity.
Qed.

Lemma traced_empty : traced upper int_of_text [] [].
Proof.
  split; [intros w day sessions k v; discriminate | intros r w day cell []].
Qed.

Lemma for_each_add_row_traced (df seen : list row)
  (schedule schedule' : template) :
  traced upper int_of_text seen schedule ->
  for_each (add_row upper int_of_text) df schedule = Ok schedule' ->
  traced upper int_of_text (seen ++ df) schedule'.
Proof.
  revert seen schedule. induction df as [ | r df IH];
    intros seen schedule Htr; cbn [for_each].
  - intros [= <-]. rewrite app_nil_r. exact Htr.
  - destruct (add_row upper int_of_text schedule r) as [s1 | e] eqn:Hadd;
      cbn [obind]; [ | discriminate].
    intros Hrest.
    replace (seen ++ r :: df) with ((seen ++ [r]) ++ df)
      by (rewrite <- app_assoc; reflexivity).
    apply (IH (seen ++ [r]) s1); [ | exact Hrest].
    apply (add_row_traced seen schedule s1 r Htr Hadd).
Qed.

End NormalizerMore.

Section NormalizerKeys.
Variable upper : string -> string.
Variable int_of_text : string -> option Z.

Lemma keys_unique_setitem (schedule : template) (week : Z)
  (days : dict string sessions_dict) :
  keys_unique schedule -> unique_keys days = true ->
  keys_unique (setitem week days schedule).
Proof.
  intros [Hu Hdays] Hd. split; [apply unique_keys_setitem; exact Hu | ].
  intros w days'. rewrite get_setitem. cbn [key_eqb Key_Z].
  destruct (w =? week); [intros [= <-]; exact Hd | apply Hdays].
Qed.

Lemma keys_unique_empty : keys_unique [].
Proof. split; [reflexivity | intros w days; discriminate]. Qed.

Lemma fill_day_unique (r : row) (week : Z) (ampm : string)
  (schedule schedule' : template) (day : string) :
  keys_unique schedule ->
  fill_day r week ampm schedule day = Ok schedule' ->
  keys_unique schedule'.
Proof.
  intros Hu. unfold fill_day, getitem.
  destruct (get week schedule) as [days | ] eqn:Hget; [ | discriminate].
  cbn [obind]. cbv zeta.
  destruct (row_getitem r day) as [cell | ]; [ | discriminate].
  cbn [obind].
  assert (Hd1 : unique_keys (if contains day days then days
                             else setitem day ([] : sessions_dict) days)
                = true).
  { pose proof (proj2 Hu week days Hget) as Hd.
    destruct (contains day days); [exact Hd | ].
    apply unique_keys_setitem. exact Hd. }
  destruct (nonempty (strip cell)).
  - match goal with
    | |- context [get day ?x] => destruct (get day x) as [sessions | ]
    end; [ | discriminate].
    cbn [obind]. intros [= <-]. apply keys_unique_setitem; [exact Hu | ].
    apply unique_keys_setitem. exact Hd1.
  - intros [= <-]. apply keys_unique_setitem; assumption.
Qed.

Lemma fill_days_unique (r : row) (week : Z) (ampm : string)
  (days : list string) (schedule schedule' : template) :
  keys_unique schedule ->
  for_each (fill_day r week ampm) days schedule = Ok schedule' ->
  keys_unique schedule'.
Proof.
  revert schedule. induction days as [ | day days IH]; intros schedule Hu;
    cbn [for_each]; [intros [= <-]; exact Hu | ].
  destruct (fill_day r week ampm schedule day) as [s1 | ] eqn:Hfill;
    cbn [obind]; [ | discriminate].
  apply IH. apply (fill_day_unique r week ampm schedule s1 day Hu Hfill).
Qed.

Lemma add_row_unique (schedule schedule' : template) (r : row) :
  keys_unique schedule ->
  add_row upper int_of_text schedule r = Ok schedule' ->
  keys_unique schedule'.
Proof.
  intros Hu. unfold add_row.
  destruct (py_int int_of_text (row_week r)) as [week | ]; [ | discriminate].
  cbn [obind]. cbv zeta. intros Hrun.
  eapply fill_days_unique; [ | exact Hrun].
  destruct (contains week schedule); [exact Hu | ].
  apply keys_unique_setitem; [exact Hu | reflexivity].
Qed.

Lemma for_each_add_row_unique (df : list row) (schedule schedule' : template) :
  keys_unique schedule ->
  for_each (add_row upper int_of_text) df schedule = Ok schedule' ->
  keys_unique schedule'.
Proof.
  revert schedule. induction df as [ | r df IH]; intros schedule Hu;
    cbn [for_each]; [intros [= <-]; exact Hu | ].
  destruct (add_row upper int_of_text schedule r) as [s1 | ] eqn:Hadd;
    cbn [obind]; [ | discriminate].
  apply IH. apply (add_row_unique schedule s1 r Hu Hadd).
Qed.

(** The guard of the download button, in terms of entries. *)
Lemma has_any_label_iff (schedule : template) :
  keys_unique schedule ->
  (has_any_label schedule = true
   <-> exists w day sessions,
         lookup schedule w day = Some sessions
         /\ truthy (get "AM" sessions) || truthy (get "PM" sessions) = true).
Proof.
  intros [Hu Hdays]. unfold has_any_label, items, lookup.
  rewrite existsb_exists. split.
  - intros ([w days] & Hin & Hex). cbn [snd] in Hex.
    apply existsb_exists in Hex. destruct Hex as ([day sessions] & Hin' & Ht).
    cbn [snd] in Ht. exists w, day, sessions.
    assert (Hw : get w schedule = Some days) by (apply In_get; assumption).
    rewrite Hw. split; [ | exact Ht].
    apply In_get; [apply (Hdays w days Hw) | exact Hin'].
  - intros (w & day & sessions & Hlook & Ht).
    destruct (get w schedule) as [days | ] eqn:Hw; [ | discriminate].
    exists (w, days). split; [apply get_In; exact Hw | ]. cbn [snd].
    apply existsb_exists. exists (day, sessions).
    split; [apply get_In; exact Hlook | exact Ht].
Qed.

(** For a built template the guard holds exactly when a row whose key
    is "AM" or "PM" has a non-blank weekday cell. *)
Lemma guard_iff_rows (df : list row) (schedule : template) :
  build_schedule_from_df upper int_of_text df = Ok schedule ->
  (has_any_label schedule = true
   <-> exists r day cell,
         In r df /\ fills r day cell
         /\ (row_key upper r = "AM" \/ row_key upper r = "PM")).
Proof.
  intros Hbuild. unfold build_schedule_from_df in Hbuild.
  pose proof (for_each_add_row_unique df [] schedule keys_unique_empty
                Hbuild) as Hu.
  pose proof (for_each_add_row_traced upper int_of_text df [] [] schedule
                (traced_empty upper int_of_text) Hbuild) as (Hfrom & Hkept).
  pose proof (for_each_add_row_normalized upper int_of_text df [] [] schedule
                (normalized_empty int_of_text) Hbuild)
    as (_ & _ & Hvalues & _).
  cbn [app] in *. rewrite (has_any_label_iff schedule Hu). split.
  - intros (w & day & sessions & Hlook & Ht).
    apply orb_true_iff in Ht. destruct Ht as [Ht | Ht].
    + destruct (get "AM" sessions) as [v | ] eqn:Hv; [ | discriminate].
      destruct (Hfrom w day sessions "AM" v Hlook Hv)
        as (r & cell & Hin & _ & Hkey & Hfills & _).
      exists r, day, cell. auto.
    + destruct (get "PM" sessions) as [v | ] eqn:Hv; [ | discriminate].
      destruct (Hfrom w day sessions "PM" v Hlook Hv)
        as (r & cell & Hin & _ & Hkey & Hfills & _).
      exists r, day, cell. auto.
  - intros (r & day & cell & Hin & Hfills & Hkey).
    destruct (for_each_add_row_ok_weeks upper int_of_text df [] schedule
                Hbuild r Hin) as (w & Hw).
    destruct (Hkept r w day cell Hin Hw Hfills) as (sessions & v & Hlook & Hv).
    exists w, day, sessions. split; [exact Hlook | ].
    destruct (Hvalues w day sessions _ v Hlook Hv) as [Hne _].
    apply nonempty_true in Hne.
    destruct Hkey as [Hkey | Hkey]; rewrite Hkey in Hv; rewrite Hv;
      cbn [truthy]; rewrite Hne; [reflexivity | apply orb_true_r].
Qed.

End NormalizerKeys.

Section RowOrder.
Variable upper : string -> string.
Variable int_of_text : string -> option Z.

(** Rows that do not fill the same cell under the same key leave a
    stored label as it is. *)
Lemma later_rows_keep (week : Z) (day key v : string) (post : list row)
  (schedule schedule' : template) :
  for_each (add_row upper int_of_text) post schedule = Ok schedule' ->
  (forall r' cell', In r' post ->
     py_int int_of_text (row_week r') = Ok week ->
     row_key upper r' = key -> ~ fills r' day cell') ->
  (exists sessions,
     lookup schedule week day = Some sessions /\ get key sessions = Some v) ->
  exists sessions,
    lookup schedule' week day = Some sessions /\ get key sessions = Some v.
Proof.
  revert schedule. induction post as [ | r' post IH];
    intros schedule Hrun Hlater Hhave; cbn [for_each] in Hrun.
  - injection Hrun as <-. exact Hhave.
  - destruct (add_row upper int_of_text schedule r') as [s1 | ] eqn:Hadd;
      [ | discriminate].
    cbn [obind] in Hrun. apply (IH s1 Hrun).
    { intros r'' cell'' Hin. apply Hlater. right. exact Hin. }
    destruct Hhave as (sessions & Hlook & Hget).
    destruct (add_row_ok_week upper int_of_text schedule s1 r' Hadd)
      as (w' & Hw').
    rewrite (add_row_entry upper int_of_text schedule s1 r' w' Hw' Hadd).
    destruct (Z.eqb_spec week w') as [<- | _]; cbn [andb]; [ | eauto].
    destruct (existsb (String.eqb day) (keys WEEKDAY_MAP)); [ | eauto].
    unfold updated_entry. rewrite Hlook.
    destruct (row_getitem r' day) as [cell' | ] eqn:Hcell; [ | eauto].
    destruct (nonempty (strip cell')) eqn:Hne; [ | eauto].
    eexists. split; [reflexivity | ]. rewrite get_setitem.
    cbn [key_eqb Key_string].
    destruct (String.eqb_spec key (row_key upper r')) as [Heq | _];
      [ | exact Hget].
    exfalso. apply (Hlater r' cell' (or_introl eq_refl) Hw' (eq_sym Heq)).
    split; [exact Hcell | apply nonempty_true; exact Hne].
Qed.

End RowOrder.

(** X13: the last row wins.  When a row fills a weekday cell and no
    later row of the same week and the same session key fills that
    cell, the template holds, under that week, weekday and key, the
    stripped text of the cell, whatever earlier rows wrote there. *)
Theorem last_row_wins (upper : string -> string)
  (int_of_text : string -> option Z) (pre post : list row) (r : row)
  (schedule : template) (week : Z) (day cell : string) :
  build_schedule_from_df upper int_of_text (pre ++ r :: post) = Ok schedule ->
  py_int int_of_text (row_week r) = Ok week ->
  fills r day cell ->
  (forall r' cell', In r' post ->
     py_int int_of_text (row_week r') = Ok week ->
     row_key upper r' = row_key upper r -> ~ fills r' day cell') ->
  exists sessions,
    lookup schedule week day = Some sessions
    /\ get (row_key upper r) sessions = Some (strip cell).
Proof.
  unfold build_schedule_from_df. rewrite for_each_app.
  destruct (for_each (add_row upper int_of_text) pre []) as [s1 | ];
    [ | discriminate].
  cbn [obind for_each].
  destruct (add_row upper int_of_text s1 r) as [s2 | ] eqn:Hadd;
    [ | discriminate].
  cbn [obind]. intros Hrun Hweek (Hcell & Hne) Hlater.
  apply (later_rows_keep upper int_of_text week day (row_key upper r)
           (strip cell) post s2 schedule Hrun Hlater).
  rewrite (add_row_entry upper int_of_text s1 s2 r week Hweek Hadd).
  rewrite Z.eqb_refl.
  rewrite (proj2 (in_days day) (row_getitem_ok r day cell Hcell)).
  cbn [andb]. unfold updated_entry. rewrite Hcell.
  apply nonempty_true in Hne. rewrite Hne.
  eexists. split; [reflexivity | ].
  rewrite get_setitem, key_eqb_refl. reflexivity.
Qed.

Lemma last_row_wins_witness :
  exists sessions,
    lookup [(1, [("Mon", []); ("Tues", []); ("Wed", [("AM", "Lab B")]);
                 ("Thur", []); ("Fri", [])])] 1 "Wed" = Some sessions
    /\ get (row_key ascii_upper (mkrow (WeekInt 1) " am" "" "" " Lab B " "" ""))
         sessions
       = Some (strip " Lab B ").
Proof.
  apply (last_row_wins ascii_upper decimal_int one_cell []
           (mkrow (WeekInt 1) " am" "" "" " Lab B " "" "")
           [(1, [("Mon", []); ("Tues", []); ("Wed", [("AM", "Lab B")]);
                 ("Thur", []); ("Fri", [])])] 1 "Wed" " Lab B "
           eq_refl eq_refl).
  - split; [reflexivity | discriminate].
  - intros r' cell' [].
Defined.

(** X14: a built template holds what the rows hold and nothing else:
    every label stored under a week, weekday and key is the stripped
    non-blank cell of a row of that week whose "AM/PM" cell, stripped
    and upper-cased, is that key; and every non-blank weekday cell of a
    row has its key in the entry of its week and weekday. *)
Theorem template_traces_rows (upper : string -> string)
  (int_of_text : string -> option Z) (df : list row) (schedule : template) :
  build_schedule_from_df upper int_of_text df = Ok schedule ->
  (forall w day sessions k v,
     lookup schedule w day = Some sessions -> get k sessions = Some v ->
     exists r cell,
       In r df /\ py_int int_of_text (row_week r) = Ok w
       /\ upper (strip (row_ampm r)) = k
       /\ row_getitem r day = Ok cell /\ strip cell = v
       /\ v <> EmptyString)
  /\ (forall r w day cell,
        In r df -> py_int int_of_text (row_week r) = Ok w ->
        row_getitem r day = Ok cell -> strip cell <> EmptyString ->
        exists sessions v,
          lookup schedule w day = Some sessions
          /\ get (upper (strip (row_ampm r))) sessions = Some v).
Proof.
  intros Hbuild. unfold build_schedule_from_df in Hbuild.
  pose proof (for_each_add_row_traced upper int_of_text df [] [] schedule
                (traced_empty upper int_of_text) Hbuild) as (Hfrom & Hkept).
  cbn [app] in *. split.
  - intros w day sessions k v Hlook Hget.
    destruct (Hfrom w day sessions k v Hlook Hget)
      as (r & cell & Hin & Hw & Hkey & (Hcell & Hne) & Hv).
    exists r, cell. repeat split; auto. congruence.
  - intros r w day cell Hin Hw Hcell Hne.
    apply (Hkept r w day cell Hin Hw (conj Hcell Hne)).
Qed.

Lemma template_traces_rows_witness :
  exists r cell,
    In r one_cell /\ py_int decimal_int (row_week r) = Ok 1
    /\ ascii_upper (strip (row_ampm r)) = "AM"
    /\ row_getitem r "Wed" = Ok cell /\ strip cell = "Lab A"
    /\ "Lab A" <> EmptyString.
Proof.
  destruct (template_traces_rows ascii_upper decimal_int one_cell
              one_cell_template eq_refl) as [Hfrom _].
  apply (Hfrom 1 "Wed" [("AM", "Lab A")] "AM" "Lab A" eq_refl eq_refl).
Defined.

(** ** The page *)

Section PageFacts.
Variable clock : nat -> datetime.
Variable upper : string -> string.
Variable int_of_text : string -> option Z.



End PageFacts.



(** X16: for a table that normalizes and a range that is not reversed,
    the page shows the notice asking for a schedule exactly when no row
    whose "AM/PM" cell reads "AM" or "PM" (after stripping and
    upper-casing) has a non-blank weekday cell; when there is such a row
    it calls [generate_ics] and offers its text for download, or fails
    as [generate_ics] fails. *)
Theorem download_enabled_iff (clock : nat -> datetime)
  (upper : string -> string) (int_of_text : string -> option Z)
  (df : list row) (schedule : template) (start_date end_date : date)
  (n : nat) :
  date_ltb end_date start_date = false ->
  build_schedule_from_df upper int_of_text df = Ok schedule ->
  let filled :=
    exists r day cell,
      In r df /\ row_getitem r day = Ok cell /\ strip cell <> EmptyString
      /\ (upper (strip (row_ampm r)) = "AM"
          \/ upper (strip (row_ampm r)) = "PM") in
  (page clock upper int_of_text df start_date end_date n
   = Ok (InfoNotice
           "Enter your schedule above to enable the download button.", n)
   <-> ~ filled)
  /\ (filled ->
      page clock upper int_of_text df start_date end_date n
      = match generate_ics clock start_date end_date schedule n with
        | Ok (data, n') =>
            Ok (DownloadButton "Generate and Download .ics file" data
                  "schedule.ics" "text/calendar", n')
        | Raise e => Raise e
        end).
Proof.
  intros Hrange Hbuild filled.
  assert (Hguard : has_any_label schedule = true <-> filled).
  { rewrite (guard_iff_rows upper int_of_text df schedule Hbuild).
    unfold filled, fills, row_key. split.
    - intros (r & day & cell & Hin & [Hc Hne] & Hk). exists r, day, cell. auto.
    - intros (r & day & cell & Hin & Hc & Hne & Hk). exists r, day, cell. auto. }
  unfold page. rewrite Hrange. unfold bind at 1 3. rewrite Hbuild.
  cbn [lift]. destruct (has_any_label schedule) eqn:Hlabel.
  - assert (Hf : filled) by (apply Hguard; reflexivity). split.
    + split; [ | intros Hnot; contradiction].
      unfold bind.
      destruct (generate_ics clock start_date end_date schedule n)
        as [[data n'] | e]; discriminate.
    + intros _. unfold bind.
      destruct (generate_ics clock start_date end_date schedule n)
        as [[data n'] | e]; reflexivity.
  - assert (Hf : ~ filled) by (intros Hf; apply Hguard in Hf; discriminate).
    split; [split; [intros _; exact Hf | reflexivity] | ].
    intros Hfilled. contradiction.
Qed.

Lemma download_enabled_iff_witness :
  page ticking ascii_upper decimal_int default_data wed_oct_1 tue_oct_7 0%nat
  = Ok (InfoNotice
          "Enter your schedule above to enable the download button.", 0%nat).
Proof.
  destruct (download_enabled_iff ticking ascii_upper decimal_int default_data
              [(1, [("Mon", []); ("Tues", []); ("Wed", []); ("Thur", []);
                    ("Fri", [])]);
               (2, [("Mon", []); ("Tues", []); ("Wed", []); ("Thur", []);
                    ("Fri", [])]);
               (3, [("Mon", []); ("Tues", []); ("Wed", []); ("Thur", []);
                    ("Fri", [])]);
               (4, [("Mon", []); ("Tues", []); ("Wed", []); ("Thur", []);
                    ("Fri", [])]);
               (5, [("Mon", []); ("Tues", []); ("Wed", []); ("Thur", []);
                    ("Fri", [])])]
              wed_oct_1 tue_oct_7 0%nat eq_refl eq_refl) as [[_ Hinfo] _].
  apply Hinfo. intros (r & day & cell & Hin & Hcell & Hne & _).
  apply Hne. cbn in Hin.
  repeat (destruct Hin as [<- | Hin];
          [apply row_getitem_ok in Hcell as Hday; cbn in Hday;
           repeat (destruct Hday as [<- | Hday];
                   [cbn in Hcell; injection Hcell as <-; reflexivity | ]);
           destruct Hday | ]).
  destruct Hin.
Defined.

(** X17: the page fails with [KeyError] when the schedule has a label,
    the range is not reversed and holds a weekday whose week of month
    is the week of some row while no row of that week fills the column
    of that weekday: the normalizer has left an entry without sessions
    there. *)
Theorem page_unfilled_weekday_raises (clock : nat -> datetime)
  (upper : string -> string) (int_of_text : string -> option Z)
  (df : list row) (schedule : template) (start_date end_date d : date)
  (day : string) (n : nat) :
  valid_date start_date = true -> valid_date end_date = true ->
  build_schedule_from_df upper int_of_text df = Ok schedule ->
  has_any_label schedule = true ->
  within start_date end_date d ->
  weekday d < 5 -> day_name_of (weekday d) = Ok day ->
  (exists r, In r df
     /\ py_int int_of_text (row_week r) = Ok (get_week_number_in_month d)) ->
  (forall r cell, In r df ->
     py_int int_of_text (row_week r) = Ok (get_week_number_in_month d) ->
     row_getitem r day = Ok cell -> strip cell = EmptyString) ->
  page clock upper int_of_text df start_date end_date n = Raise KeyError.
Proof.
  intros Hs He Hbuild Hlabel (Hd & Hsd & Hde) Hw Hday (r & Hin & Hweek) Hblank.
  pose proof Hbuild as Hrows. unfold build_schedule_from_df in Hrows.
  pose proof (for_each_add_row_normalized upper int_of_text df [] [] schedule
                (normalized_empty int_of_text) Hrows)
    as (Hweeks & Hdays & _ & Horigin).
  cbn [app] in *.
  assert (Hname : In day (keys WEEKDAY_MAP)).
  { pose proof (weekday_range d) as Hr.
    destruct (day_name_of_weekday (weekday d)) as (name & Hn & Hin');
      [lia | ]. congruence. }
  destruct (Hdays _ day (Hweeks r _ Hin Hweek) Hname) as (sessions & Hlook).
  assert (Hempty : sessions = []).
  { destruct sessions as [ | kv rest]; [reflexivity | exfalso].
    destruct (Horigin _ day (kv :: rest) Hlook ltac:(discriminate))
      as (r' & cell & Hin' & Hweek' & Hcell & Hne).
    apply Hne. apply (Hblank r' cell Hin' Hweek' Hcell). }
  subst sessions.
  assert (Hraise : day_events schedule d = Raise KeyError).
  { apply day_events_raises. split; [reflexivity | ]. split; [exact Hw | ].
    exists []. unfold template_entry. rewrite Hday.
    unfold lookup in Hlook. split; [exact Hlook | split; reflexivity]. }
  rewrite date_leb_toordinal in Hsd, Hde by auto.
  apply Z.leb_le in Hsd, Hde.
  assert (Hle : date_ltb end_date start_date = false).
  { destruct (date_ltb end_date start_date) eqn:Hlt; [ | reflexivity].
    apply date_ltb_toordinal in Hlt; auto. lia. }
  unfold page. rewrite Hle. unfold bind at 1. rewrite Hbuild. cbn [lift].
  rewrite Hlabel. unfold bind.
  rewrite generate_ics_join, generate_ics_lines_events.
  unfold planned_events.
  rewrite (events_loop_hits schedule end_date He
             (loop_fuel start_date end_date) start_date d Hs Hd
             (conj Hsd Hde) ltac:(unfold loop_fuel; lia) Hraise).
  reflexivity.
Qed.

Lemma page_unfilled_weekday_raises_witness :
  within wed_oct_1 tue_oct_7 thu_oct_2
  /\ page ticking ascii_upper decimal_int one_cell wed_oct_1 tue_oct_7 0%nat
     = Raise KeyError.
Proof.
  split; [repeat split; reflexivity | ].
  apply (page_unfilled_weekday_raises ticking ascii_upper decimal_int one_cell
           one_cell_template wed_oct_1 tue_oct_7 thu_oct_2 "Thur" 0%nat
           eq_refl eq_refl eq_refl eq_refl).
  - repeat split; reflexivity.
  - reflexivity.
  - reflexivity.
  - eexists. split; [left; reflexivity | reflexivity].
  - intros r cell [<- | []] _. cbn. intros [= <-]. reflexivity.
Defined.

(** ** Size of the output *)

Lemma events_loop_length (schedule : template) (end_date : date)
  (fuel : nat) (cur : date) (evs : list event) :
  valid_date end_date = true ->
  all_entries session_keys_ok schedule = true ->
  valid_date cur = true ->
  events_loop fuel schedule end_date cur = Ok evs ->
  (List.length evs
   <= 2 * Z.to_nat (toordinal end_date - toordinal cur + 1))%nat.
Proof.
  intros Hend Hkeys. revert cur evs.
  induction fuel as [ | fuel IH]; intros cur evs Hcur; cbn [events_loop];
    rewrite (date_leb_toordinal cur end_date Hcur Hend);
    destruct (toordinal cur <=? toordinal end_date) eqn:Hle;
    try discriminate; try (intros [= <-]; cbn; lia).
  apply Z.leb_le in Hle.
  destruct (day_events schedule cur) as [evs_d | e] eqn:Hday;
    cbn [obind]; [ | discriminate].
  destruct (add_one_day cur) as [next | e] eqn:Hnext;
    cbn [obind]; [ | discriminate].
  destruct (add_one_day_ok cur next Hcur Hnext) as [Hvalid Hord].
  destruct (events_loop fuel schedule end_date next) as [rest | e] eqn:Hrest;
    cbn [obind]; [ | discriminate].
  intros [= <-]. rewrite length_app.
  pose proof (IH next rest Hvalid Hrest) as Hlen.
  assert (Hd : (List.length evs_d <= 2)%nat).
  { apply (day_events_at_most_two schedule cur evs_d); [ | exact Hday].
    intros sessions Hentry.
    apply (all_entries_entry _ _ _ _ Hkeys Hentry). }
  lia.
Qed.

(** X18: when every entry of the template has its keys among "AM" and
    "PM", a run emits at most two events per day of the range: its
    output has at most 18 lines for each day from the start date to the
    end date. *)
Theorem output_size_bound (clock : nat -> datetime)
  (start_date end_date : date) (schedule : template)
  (n : nat) (lines : list string) (n' : nat) :
  valid_date start_date = true -> valid_date end_date = true ->
  all_entries session_keys_ok schedule = true ->
  generate_events clock start_date end_date schedule n = Ok (lines, n') ->
  (List.length lines
   <= 18 * Z.to_nat (toordinal end_date - toordinal start_date + 1))%nat
  /\ (n' - n
      <= 2 * Z.to_nat (toordinal end_date - toordinal start_date + 1))%nat.
Proof.
  intros Hs He Hkeys. rewrite generate_events_events.
  destruct (planned_events start_date end_date schedule) as [evs | e] eqn:Hp;
    [ | discriminate].
  intros [= <- <-]. rewrite event_blocks_length.
  pose proof (events_loop_length schedule end_date _ start_date evs
                He Hkeys Hs Hp) as Hlen.
  lia.
Qed.

Lemma output_size_bound_witness :
  (List.length
     (event_blocks ticking 0
        [ full_day_event wed_oct_1 "Lab A"; morning_event thu_oct_2 "RoomA";
          afternoon_event thu_oct_2 "RoomB"; morning_event fri_oct_3 "Clinic" ])
   <= 18 * Z.to_nat (toordinal tue_oct_7 - toordinal wed_oct_1 + 1))%nat
  /\ (4 - 0 <= 2 * Z.to_nat (toordinal tue_oct_7 - toordinal wed_oct_1 + 1))%nat.
Proof.
  apply (output_size_bound ticking wed_oct_1 tue_oct_7 rooms 0%nat _ 4%nat
           eq_refl eq_refl eq_refl eq_refl).
Defined.
